(** * dockerisedPlaywrightAPITest: the API client and the response validators

    A shallow embedding of
      - [src/types/api-responses.ts]  (entity interfaces, shape guards,
        the [ApiResponse] envelope),
      - [src/utils/validators.ts]     (class [ResponseValidator]),
      - [src/utils/api-client.ts]     (class [ApiClient]),
    and the properties the specification states about them.

    JavaScript values are modelled as far as the program inspects them:
    strings are sequences of UTF-16 code units, numbers carry the special
    values that truthiness, [===] and [Object.is] tell apart, [undefined]
    is the [None] of an option.  Exceptions are explicit completions.  The
    HTTP transport is an oracle: the client acts on a world that records
    the requests issued and the console.  The [Date.now()] readings that
    only feed log lines are left out, as are the console lines of the
    entity validators, whose results do not depend on them. *)

From Stdlib Require Import ZArith NArith QArith List String Ascii Bool Lia.
Import ListNotations.

Set Implicit Arguments.
Local Open Scope nat_scope.
Local Open Scope list_scope.

(* ===================================================================== *)
(** ** JavaScript data *)
(* ===================================================================== *)

Module JS.

(** A string is its sequence of UTF-16 code units. *)
Definition jsstring := list N.

Definition js (s : string) : jsstring :=
  List.map N_of_ascii (list_ascii_of_string s).

Fixpoint str_eqb (a b : jsstring) : bool :=
  match a, b with
  | [], [] => true
  | x :: a', y :: b' => N.eqb x y && str_eqb a' b'
  | _, _ => false
  end.

(** WhiteSpace and LineTerminator code points of ECMAScript: the set that
    [String.prototype.trim] strips and that [\s] matches (no [u] flag). *)
Definition is_whitespace (c : N) : bool :=
  ((9 <=? c) && (c <=? 13) || (c =? 32) || (c =? 160) || (c =? 5760)
   || (8192 <=? c) && (c <=? 8202) || (c =? 8232) || (c =? 8233)
   || (c =? 8239) || (c =? 8287) || (c =? 12288) || (c =? 65279))%N.

Fixpoint trimStart (s : jsstring) : jsstring :=
  match s with
  | c :: s' => if is_whitespace c then trimStart s' else s
  | [] => []
  end.

Definition trimEnd (s : jsstring) : jsstring := rev (trimStart (rev s)).

(** [s.trim()] *)
Definition trim (s : jsstring) : jsstring := trimEnd (trimStart s).

(** Numbers: the finite values as rationals (every finite double is one),
    and the values that equality and truthiness single out. *)
Inductive number : Type :=
| Finite (q : Q)
| NegZero
| NaN
| PosInfinity
| NegInfinity.

Definition of_Z (z : Z) : number := Finite (inject_Z z).

(** [a === b] on numbers. *)
Definition num_strict_equals (a b : number) : bool :=
  match a, b with
  | Finite p, Finite q => Qeq_bool p q
  | Finite p, NegZero | NegZero, Finite p => Qeq_bool p 0
  | NegZero, NegZero => true
  | PosInfinity, PosInfinity => true
  | NegInfinity, NegInfinity => true
  | _, _ => false
  end.

(** [Object.is(a, b)] on numbers: [NaN] is itself, the two zeros differ. *)
Definition num_same_value (a b : number) : bool :=
  match a, b with
  | Finite p, Finite q => Qeq_bool p q
  | NegZero, NegZero => true
  | NaN, NaN => true
  | PosInfinity, PosInfinity => true
  | NegInfinity, NegInfinity => true
  | _, _ => false
  end.

(** ToBoolean on numbers: [0], [-0] and [NaN] are falsy. *)
Definition num_truthy (a : number) : bool :=
  match a with
  | Finite q => negb (Qeq_bool q 0)
  | NegZero | NaN => false
  | PosInfinity | NegInfinity => true
  end.

(** The values a parsed response body is made of. *)
#[warnings="-register-all"]
Inductive value : Type :=
| VNull
| VBool (b : bool)
| VNum (n : number)
| VStr (s : jsstring)
| VArr (items : list value)
| VObj (fields : list (jsstring * value)).

(** A value of type [unknown] or an optional field: [None] is [undefined]. *)
Definition unknown := option value.

Inductive jstype : Type :=
| TUndefined | TObject | TBoolean | TNumber | TString.

Definition jstype_eqb (a b : jstype) : bool :=
  match a, b with
  | TUndefined, TUndefined | TObject, TObject | TBoolean, TBoolean
  | TNumber, TNumber | TString, TString => true
  | _, _ => false
  end.

(** [typeof x]; [null] and arrays are ["object"]. *)
Definition typeof (x : unknown) : jstype :=
  match x with
  | None => TUndefined
  | Some VNull => TObject
  | Some (VBool _) => TBoolean
  | Some (VNum _) => TNumber
  | Some (VStr _) => TString
  | Some (VArr _) => TObject
  | Some (VObj _) => TObject
  end.

(** ToBoolean: what [!x] negates. *)
Definition truthy (x : unknown) : bool :=
  match x with
  | None | Some VNull => false
  | Some (VBool b) => b
  | Some (VNum n) => num_truthy n
  | Some (VStr s) => match s with [] => false | _ => true end
  | Some (VArr _) | Some (VObj _) => true
  end.

Definition is_defined (x : unknown) : bool :=
  match x with None => false | Some _ => true end.

Definition isArray (x : unknown) : bool :=
  match x with Some (VArr _) => true | _ => false end.

(** Own-property lookup in an object literal. *)
Fixpoint lookup (V : Type) (k : jsstring) (fields : list (jsstring * V))
  : option V :=
  match fields with
  | [] => None
  | (k', v) :: rest => if str_eqb k k' then Some v else lookup k rest
  end.

(** Writing a property: an existing key keeps its place, a new one is
    appended. *)
Fixpoint set_prop (V : Type) (k : jsstring) (v : V)
  (fields : list (jsstring * V)) : list (jsstring * V) :=
  match fields with
  | [] => [(k, v)]
  | (k', v') :: rest =>
      if str_eqb k k' then (k, v) :: rest else (k', v') :: set_prop k v rest
  end.

(** [{...a, ...b}] on string records: the properties of [b] written over
    those of [a]. *)
Definition spread (a b : list (jsstring * jsstring))
  : list (jsstring * jsstring) :=
  fold_left (fun o e => set_prop (fst e) (snd e) o) b a.

(** [Object.fromEntries(entries)] for string-valued entries. *)
Definition fromEntries (entries : list (jsstring * jsstring)) : value :=
  VObj (List.map (fun e => (fst e, VStr (snd e))) (spread [] entries)).

(** [x.k] for a named (non-index, non-builtin) property [k] of a value that
    is neither [null] nor [undefined]: primitives and arrays have no such
    property. *)
Definition prop (x : value) (k : string) : unknown :=
  match x with
  | VObj fields => lookup (js k) fields
  | _ => None
  end.

(** What a [throw] carries: an [Error] instance with its message, or some
    other value, of which the program only takes [String(error)]. *)
Inductive thrown : Type :=
| ErrorObject (message : jsstring)
| OtherThrown (as_string : jsstring).

(** Outcome of an evaluation that may throw. *)
Inductive completion (A : Type) : Type :=
| Return (a : A)
| Throw (e : thrown).
Arguments Return {A} a.
Arguments Throw {A} e.

(** [try { c } catch (error) { handler(error) }] *)
Definition try_catch (A : Type) (c : completion A)
  (handler : thrown -> completion A) : completion A :=
  match c with
  | Return a => Return a
  | Throw e => handler e
  end.

(** [error instanceof Error ? error.message : String(error)] *)
Definition message_or_string (error : thrown) : jsstring :=
  match error with
  | ErrorObject message => message
  | OtherThrown as_string => as_string
  end.

End JS.

(* ===================================================================== *)
(** ** Regular expressions: the part of [RegExp.prototype.test] in use *)
(* ===================================================================== *)

Module RegExp.
Import JS.

(** Patterns without back-references or look-around; for these, whether
    the backtracking matcher finds a match between [^] and [$] is whether
    the whole input belongs to the pattern's language. *)
Inductive regex : Type :=
| Never
| Empty
| Class (accepts : N -> bool)
| Cat (r1 r2 : regex)
| Or (r1 r2 : regex)
| Many (r : regex).

(** [r+], [(?:r)?] and [r{0,n}] *)
Definition Some1 (r : regex) : regex := Cat r (Many r).
Definition Maybe (r : regex) : regex := Or Empty r.
Fixpoint AtMost (n : nat) (r : regex) : regex :=
  match n with
  | O => Empty
  | S k => Maybe (Cat r (AtMost k r))
  end.

Fixpoint nullable (r : regex) : bool :=
  match r with
  | Never => false
  | Empty => true
  | Class _ => false
  | Cat r1 r2 => nullable r1 && nullable r2
  | Or r1 r2 => nullable r1 || nullable r2
  | Many _ => true
  end.

(** What is left of [r] once the code unit [c] has been consumed. *)
Fixpoint after (c : N) (r : regex) : regex :=
  match r with
  | Never | Empty => Never
  | Class f => if f c then Empty else Never
  | Cat r1 r2 =>
      if nullable r1 then Or (Cat (after c r1) r2) (after c r2)
      else Cat (after c r1) r2
  | Or r1 r2 => Or (after c r1) (after c r2)
  | Many r1 => Cat (after c r1) (Many r1)
  end.

(** [/^r$/.test(s)] *)
Fixpoint test (r : regex) (s : jsstring) : bool :=
  match s with
  | [] => nullable r
  | c :: s' => test (after c r) s'
  end.

(** The language of a pattern. *)
Inductive Lang : regex -> jsstring -> Prop :=
| LEmpty : Lang Empty []
| LClass f c : f c = true -> Lang (Class f) [c]
| LCat r1 r2 s1 s2 : Lang r1 s1 -> Lang r2 s2 -> Lang (Cat r1 r2) (s1 ++ s2)
| LOrL r1 r2 s : Lang r1 s -> Lang (Or r1 r2) s
| LOrR r1 r2 s : Lang r2 s -> Lang (Or r1 r2) s
| LManyNil r : Lang (Many r) []
| LManyMore r s1 s2 : Lang r s1 -> Lang (Many r) s2 -> Lang (Many r) (s1 ++ s2).

End RegExp.

(* ===================================================================== *)
(** ** [src/types/api-responses.ts] *)
(* ===================================================================== *)

Module Types.
Import JS.

(** [interface ApiResponse<T>]: [data] and [error] are optional, so either
    may be [undefined]; the checks of [validateApiResponse] are written
    against any run-time content, hence [headers] is kept untyped too. *)
Record ApiResponse : Type := {
  data : unknown;
  error : unknown;
  status : number;
  headers : unknown
}.

(** [obj.k] once [typeof obj === "object" && obj !== null] has passed. *)
Definition field (obj : unknown) (k : string) : unknown :=
  match obj with
  | Some v => prop v k
  | None => None
  end.

Definition is_object_not_null (obj : unknown) : bool :=
  jstype_eqb (typeof obj) TObject
  && match obj with Some VNull => false | _ => true end.

Definition has (obj : unknown) (k : string) (t : jstype) : bool :=
  jstype_eqb (typeof (field obj k)) t.

Definition isComment (obj : unknown) : bool :=
  is_object_not_null obj
  && has obj "id" TNumber
  && has obj "postId" TNumber
  && has obj "name" TString
  && has obj "email" TString
  && has obj "body" TString.

Definition isPhoto (obj : unknown) : bool :=
  is_object_not_null obj
  && has obj "id" TNumber
  && has obj "albumId" TNumber
  && has obj "title" TString
  && has obj "url" TString
  && has obj "thumbnailUrl" TString.

Definition isAlbum (obj : unknown) : bool :=
  is_object_not_null obj
  && has obj "id" TNumber
  && has obj "userId" TNumber
  && has obj "title" TString.

Definition isTodo (obj : unknown) : bool :=
  is_object_not_null obj
  && has obj "id" TNumber
  && has obj "userId" TNumber
  && has obj "title" TString
  && has obj "completed" TBoolean.

Definition isPost (obj : unknown) : bool :=
  is_object_not_null obj
  && has obj "id" TNumber
  && has obj "userId" TNumber
  && has obj "title" TString
  && has obj "body" TString.

(** Reading a field whose type a guard has established; the defaults are
    never reached behind the guard. *)
Definition string_of (x : unknown) : jsstring :=
  match x with Some (VStr s) => s | _ => [] end.

Definition number_of (x : unknown) : number :=
  match x with Some (VNum n) => n | _ => NaN end.

End Types.

(* ===================================================================== *)
(** ** [src/utils/validators.ts]: class [ResponseValidator] *)
(* ===================================================================== *)

Module Validators.
Import JS RegExp Types.

(** *** Character classes of the two e-mail patterns *)

Definition one_of (chars : string) (c : N) : bool :=
  existsb (N.eqb c) (js chars).

Definition between (lo hi : string) (c : N) : bool :=
  match js lo, js hi with
  | [l], [h] => ((l <=? c) && (c <=? h))%N
  | _, _ => false
  end.

(** [[a-zA-Z0-9]] *)
Definition alnum (c : N) : bool :=
  between "a" "z" c || between "A" "Z" c || between "0" "9" c.

(** [[a-zA-Z0-9.!#$%&'*+/=?^_`{|}~-]] *)
Definition local_part_char (c : N) : bool :=
  alnum c || one_of ".!#$%&'*+/=?^_`{|}~-" c.

(** [[a-zA-Z0-9-]] *)
Definition alnum_or_hyphen (c : N) : bool := alnum c || one_of "-" c.

(** [[^\s@]] *)
Definition not_space_or_at (c : N) : bool :=
  negb (is_whitespace c || one_of "@" c).

(** [[a-zA-Z0-9](?:[a-zA-Z0-9-]{0,61}[a-zA-Z0-9])?] *)
Definition dns_label : regex :=
  Cat (Class alnum)
      (Maybe (Cat (AtMost 61 (Class alnum_or_hyphen)) (Class alnum))).

(** The pattern of the first declaration (source lines 27-36), between its
    [^] and [$]. *)
Definition emailRegex_rfc5322 : regex :=
  Cat (Some1 (Class local_part_char))
      (Cat (Class (one_of "@"))
           (Cat dns_label
                (Many (Cat (Class (one_of ".")) dns_label)))).

(** The pattern of the second declaration (source lines 60-69):
    [^[^\s@]+@[^\s@]+\.[^\s@]+$]. *)
Definition emailRegex : regex :=
  Cat (Some1 (Class not_space_or_at))
      (Cat (Class (one_of "@"))
           (Cat (Some1 (Class not_space_or_at))
                (Cat (Class (one_of "."))
                     (Some1 (Class not_space_or_at))))).

(** The class body declares [static validateEmailFormat] twice.  Each
    declaration is kept under the name of its pattern. *)
Definition validateEmailFormat_rfc5322 (email : jsstring) : bool :=
  let isValid := test emailRegex_rfc5322 email in
  isValid.

Definition validateEmailFormat_simple (email : jsstring) : bool :=
  let isValid := test emailRegex email in
  isValid.

(** Class-definition evaluation defines the static methods on the
    constructor in source order, a later definition of a name replacing
    the earlier one.  These are the declarations of [validateEmailFormat]
    in that order. *)
Definition validateEmailFormat_declarations : list (jsstring -> bool) :=
  [validateEmailFormat_rfc5322; validateEmailFormat_simple].

(** [ResponseValidator.validateEmailFormat] as calls resolve it. *)
Definition validateEmailFormat : jsstring -> bool :=
  last validateEmailFormat_declarations (fun _ => false).

(** What the specification says of the canonical rule, spelled out on the
    string: a non-empty run without white space or [@], an [@], another
    such run, a dot, a third such run. *)
Definition plain_run (s : jsstring) : Prop :=
  s <> [] /\ forallb not_space_or_at s = true.

Definition matches_simple_email_pattern (s : jsstring) : Prop :=
  exists user host tld : jsstring,
    s = user ++ js "@" ++ host ++ js "." ++ tld
    /\ plain_run user /\ plain_run host /\ plain_run tld.

(** *** [validateCommentObject] (source lines 74-108) *)

(** The message V8 gives the [TypeError] of a property read on [null] or
    [undefined]. *)
Definition cannot_read (of_what : string) (k : string) : thrown :=
  ErrorObject (js "Cannot read properties of " ++ js of_what
               ++ js " (reading '" ++ js k ++ js "')").

Definition validateCommentObject (comment : unknown) : completion bool :=
  match comment with
  | None => Throw (cannot_read "undefined" "postId")
  | Some VNull => Throw (cannot_read "null" "postId")
  | Some _ =>
      (* Required fields validation *)
      if negb (truthy (field comment "postId"))
         || negb (truthy (field comment "id"))
         || negb (truthy (field comment "name"))
         || negb (truthy (field comment "email"))
         || negb (truthy (field comment "body"))
      then Return false
      (* Type validation *)
      else if negb (has comment "postId" TNumber)
           || negb (has comment "id" TNumber)
           || negb (has comment "name" TString)
           || negb (has comment "email" TString)
           || negb (has comment "body" TString)
      then Return false
      (* Email format validation *)
      else if negb (validateEmailFormat (string_of (field comment "email")))
      then Return false
      (* Content validation *)
      else if (List.length (trim (string_of (field comment "name"))) =? 0)%nat
           || (List.length (trim (string_of (field comment "email"))) =? 0)%nat
           || (List.length (trim (string_of (field comment "body"))) =? 0)%nat
      then Return false
      else Return true
  end.

(** [expected !== undefined && actual !== expected] *)
Definition mismatch (expected : option number) (actual : number) : bool :=
  match expected with
  | None => false
  | Some e => negb (num_strict_equals actual e)
  end.

(** [!s || s.trim().length === 0] for a string [s] *)
Definition empty_text (s : jsstring) : bool :=
  negb (truthy (Some (VStr s))) || (List.length (trim s) =? 0)%nat.

Section WithURL.

(** [new URL(url).protocol], or [None] where the constructor throws.  The
    WHATWG parser belongs to the platform. *)
Variable URL_protocol : jsstring -> option jsstring.

Definition validateUrlFormat (url : jsstring) : bool :=
  match URL_protocol url with
  | Some protocol =>
      let isValid := str_eqb protocol (js "http:")
                     || str_eqb protocol (js "https:") in
      isValid
  | None => false
  end.

(** The entity validators are modelled as called on the class
    ([ResponseValidator.validatePhoto(...)]), where [this.validateUrlFormat]
    is the static method above. *)
Definition validatePhoto (photo : unknown) (expectedAlbumId : option number)
  : bool :=
  if negb (isPhoto photo) then false
  else if negb (validateUrlFormat (string_of (field photo "url"))) then false
  else if negb (validateUrlFormat (string_of (field photo "thumbnailUrl")))
  then false
  else if mismatch expectedAlbumId (number_of (field photo "albumId"))
  then false
  else true.

End WithURL.

Definition validateAlbum (album : unknown) (expectedUserId : option number)
  : bool :=
  if negb (isAlbum album) then false
  else if mismatch expectedUserId (number_of (field album "userId"))
  then false
  else if empty_text (string_of (field album "title")) then false
  else true.

Definition validateTodo (todo : unknown) (expectedUserId : option number)
  : bool :=
  if negb (isTodo todo) then false
  else if negb (has todo "completed" TBoolean) then false
  else if mismatch expectedUserId (number_of (field todo "userId"))
  then false
  else if empty_text (string_of (field todo "title")) then false
  else true.

Definition validatePost (post : unknown) (expectedUserId : option number)
  : bool :=
  if negb (isPost post) then false
  else if mismatch expectedUserId (number_of (field post "userId"))
  then false
  else if empty_text (string_of (field post "title")) then false
  else if empty_text (string_of (field post "body")) then false
  else true.

(** *** [validateArrayResponse] (source lines 235-262) *)

(** What the console is told, and each application of the item validator. *)
Inductive report : Type :=
| NotAnArray
| EmptyArray
| ValidatingItems (n : nat)
| ItemFailed (i : nat) (item : value)
| AllPassed (n : nat).

Inductive event : Type :=
| Applied (i : nat) (item : value)
| Console (r : report).

(** The validator as the signature has it: the item, then the rest
    arguments. *)
Definition item_validator := unknown -> list unknown -> bool.

(** The [for] loop from index [i] on, over the items not yet visited. *)
Fixpoint validate_items (validator : item_validator)
  (validatorArgs : list unknown) (n i : nat) (items : list value)
  : bool * list event :=
  match items with
  | [] => (true, [Console (AllPassed n)])
  | item :: rest =>
      if negb (validator (Some item) validatorArgs)
      then (false, [Applied i item; Console (ItemFailed i item)])
      else
        let (result, events) :=
          validate_items validator validatorArgs n (S i) rest in
        (result, Applied i item :: events)
  end.

Definition validateArrayResponse (response : ApiResponse)
  (validator : item_validator) (validatorArgs : list unknown)
  : bool * list event :=
  if negb (truthy (data response)) || negb (isArray (data response))
  then (false, [Console NotAnArray])
  else
    match data response with
    | Some (VArr items) =>
        if (List.length items =? 0)%nat
        then (true, [Console EmptyArray])
        else
          let (result, events) :=
            validate_items validator validatorArgs (List.length items) 0 items
          in (result, Console (ValidatingItems (List.length items)) :: events)
    | _ => (false, [Console NotAnArray])
    end.

(** The indices at which a run applied the item validator, in order. *)
Fixpoint applied_indices (events : list event) : list nat :=
  match events with
  | [] => []
  | Applied i _ :: rest => i :: applied_indices rest
  | Console _ :: rest => applied_indices rest
  end.

(** The indices a run reported as failing. *)
Fixpoint reported_indices (events : list event) : list nat :=
  match events with
  | [] => []
  | Console (ItemFailed i _) :: rest => i :: reported_indices rest
  | _ :: rest => reported_indices rest
  end.

(** *** [validateApiResponse] (source lines 280-303) *)

(** The [expect] calls of the method, in source order. *)
Inductive expectation : Type :=
| StatusToBeExpected
| DataToBeDefined
| ErrorToBeUndefined
| ErrorToBeDefined
| DataToBeUndefined
| HeadersToBeDefined
| TypeofHeadersToBeObject.

(** A failed [expect] throws and ends the method. *)
Inductive checked : Type :=
| Passed
| AssertionFailure (failed : expectation).

Definition expect (holds : bool) (what : expectation) : checked :=
  if holds then Passed else AssertionFailure what.

Definition and_then (first next : checked) : checked :=
  match first with
  | Passed => next
  | AssertionFailure what => AssertionFailure what
  end.

Local Notation "a ;; b" := (and_then a b) (at level 61, right associativity).

Definition validateApiResponse (response : ApiResponse)
  (expectedStatus : option number) : checked :=
  let expectedStatus :=
    match expectedStatus with Some n => n | None => of_Z 200 end in
  (* Status code validation *)
  expect (num_same_value (status response) expectedStatus) StatusToBeExpected ;;
  (* Response structure validation *)
  (if num_strict_equals expectedStatus (of_Z 200)
   then expect (is_defined (data response)) DataToBeDefined ;;
        expect (negb (is_defined (error response))) ErrorToBeUndefined
   else expect (is_defined (error response)) ErrorToBeDefined ;;
        expect (negb (is_defined (data response))) DataToBeUndefined) ;;
  (* Headers validation *)
  expect (is_defined (headers response)) HeadersToBeDefined ;;
  expect (jstype_eqb (typeof (headers response)) TObject)
         TypeofHeadersToBeObject.

End Validators.

(* ===================================================================== *)
(** ** The HTTP transport: Playwright's [APIRequestContext] *)
(* ===================================================================== *)

Module Playwright.
Import JS.

(** What the client reads of an [APIResponse]: [status()], the outcome of
    [json()], [headersArray()]. *)
Record APIResponse : Type := {
  status : Z;
  json : completion value;
  headersArray : list (jsstring * jsstring)
}.

(** The options [get] is called with. *)
Record request_options : Type := {
  headers : list (jsstring * jsstring);
  timeout : number
}.

Record request : Type := {
  url : jsstring;
  options : request_options
}.

(** How a request ends: the response or the failure of the transport, and
    the instant at which it is known. *)
Record exchange : Type := {
  settles_at : nat;
  outcome : completion APIResponse
}.

(** The peer: what the [n]-th request issued through the context meets. *)
Definition APIRequestContext := nat -> request -> exchange.

End Playwright.

(* ===================================================================== *)
(** ** [src/utils/api-client.ts]: class [ApiClient] *)
(* ===================================================================== *)

Module Client.
Import JS Types.

Record ApiClient : Type := {
  request : Playwright.APIRequestContext;
  baseUrl : jsstring
}.

(** [options] of [get]; every member is optional. *)
Record get_options : Type := {
  expectedStatus : option number;
  timeout : option number;
  headers : option (list (jsstring * jsstring))
}.

(** [{}] *)
Definition no_options : get_options :=
  {| expectedStatus := None; timeout := None; headers := None |}.

(** The console lines of the client, without the elapsed times some of
    them print. *)
Inductive line : Type :=
| ApiRequestLine (url : jsstring)
| ApiExpectedStatus (expected : number)
| ApiResponseStatus (actual : Z)
| ApiParseFailure (parseError : thrown)
| ApiUnexpectedStatus (actual : Z) (expected : number)
| ApiResponseBody (body : value)
| ApiSuccess (url : jsstring)
| ApiFailure (url : jsstring) (actual : Z)
| ApiRequestFailed (error : thrown)
| ApiErrorUrl (url : jsstring)
| LoadTestStart (concurrency : nat) (endpoint : jsstring)
| LoadTestInitiating (index concurrency : nat)
| LoadTestCompleted (concurrency : nat)
| LoadTestSuccessRate (successCount concurrency : nat)
| LoadTestFailed (error : thrown)
| HealthCheckFailed (error : thrown).

(** What the client acts on: the requests issued so far, oldest first, and
    the console.  The lines of calls that run concurrently are recorded
    call after call; their interleaving on a real console follows the
    timing of the transport. *)
Record world : Type := {
  issued : list Playwright.request;
  console : list line
}.

Definition fresh : world := {| issued := []; console := [] |}.

(** Computations that act on the world and may throw. *)
Definition action (A : Type) : Type := world -> completion A * world.

Definition ret (A : Type) (a : A) : action A := fun w => (Return a, w).

Definition throw (A : Type) (e : thrown) : action A := fun w => (Throw e, w).
Arguments throw {A} e.

Definition bind (A B : Type) (c : action A) (k : A -> action B) : action B :=
  fun w =>
    match c w with
    | (Return a, w') => k a w'
    | (Throw e, w') => (Throw e, w')
    end.

Definition catch (A : Type) (c : action A) (handler : thrown -> action A)
  : action A :=
  fun w =>
    match c w with
    | (Return a, w') => (Return a, w')
    | (Throw e, w') => handler e w'
    end.

Definition lift (A : Type) (c : completion A) : action A := fun w => (c, w).

Definition log (l : line) : action unit :=
  fun w => (Return tt, {| issued := issued w; console := console w ++ [l] |}).

Definition when (b : bool) (c : action unit) : action unit :=
  if b then c else ret tt.

Local Notation "x <- c ;; k" := (bind c (fun x => k))
  (at level 61, c at next level, right associativity).
Local Notation "c ;; k" := (bind c (fun _ => k))
  (at level 61, right associativity).

(** [this.request.get(url, options)]: the request is issued, the context
    decides how it ends. *)
Definition request_get (this : ApiClient) (url : jsstring)
  (options : Playwright.request_options) (w : world)
  : Playwright.exchange * world :=
  let r := {| Playwright.url := url; Playwright.options := options |} in
  (request this (List.length (issued w)) r,
   {| issued := issued w ++ [r]; console := console w |}).

(** A promise that has been created: what it settles to, and when. *)
Record promise (A : Type) : Type := {
  settles_at : nat;
  result : completion A
}.

(** [response.status() !== expectedStatus] *)
Definition status_differs (actual : Z) (expected : number) : bool :=
  negb (num_strict_equals (of_Z actual) expected).

(** [get] (source lines 20-99).  The call returns its promise once the
    request is issued; what the promise settles to is what the rest of the
    body makes of the exchange. *)
Definition get (this : ApiClient) (endpoint : jsstring)
  (options : get_options) (w : world) : promise ApiResponse * world :=
  let expectedStatus :=
    match expectedStatus options with Some n => n | None => of_Z 200 end in
  let timeout :=
    match timeout options with Some n => n | None => of_Z 10000 end in
  let headers := match headers options with Some h => h | None => [] end in
  let url := baseUrl this ++ endpoint in
  let (_, w) :=
    (log (ApiRequestLine url) ;;
     log (ApiExpectedStatus expectedStatus)) w in
  let (exchange, w) :=
    request_get this url
      {| Playwright.headers :=
           spread [(js "Accept", js "application/json")] headers;
         Playwright.timeout := timeout |} w in
  let (outcome, w) :=
    catch
      (response <- lift (Playwright.outcome exchange) ;;
       log (ApiResponseStatus (Playwright.status response)) ;;
       (* Parse response body *)
       responseData <-
         catch (lift (Playwright.json response))
               (fun parseError =>
                  log (ApiParseFailure parseError) ;;
                  throw (ErrorObject (js "Invalid JSON response from "
                                      ++ url))) ;;
       (* Validate response status *)
       when (status_differs (Playwright.status response) expectedStatus)
            (log (ApiUnexpectedStatus (Playwright.status response)
                                      expectedStatus) ;;
             log (ApiResponseBody responseData)) ;;
       (* Create standardized response object *)
       let isSuccessStatus :=
         ((200 <=? Playwright.status response)
          && (Playwright.status response <? 300))%Z in
       let apiResponse :=
         {| data := if isSuccessStatus then Some responseData else None;
            error := if negb isSuccessStatus then Some responseData else None;
            status := of_Z (Playwright.status response);
            Types.headers :=
              Some (fromEntries (Playwright.headersArray response)) |} in
       (* Log success/failure *)
       (if status_differs (Playwright.status response) expectedStatus
        then log (ApiFailure url (Playwright.status response))
        else log (ApiSuccess url)) ;;
       ret apiResponse)
      (fun error =>
         log (ApiRequestFailed error) ;;
         log (ApiErrorUrl url) ;;
         (* Re-throw with additional context *)
         throw (ErrorObject (js "API request to " ++ url ++ js " failed: "
                             ++ message_or_string error))) w in
  ({| settles_at := Playwright.settles_at exchange; result := outcome |}, w).

(** [await p] *)
Definition await (A : Type) (p : promise A) : action A := lift (result p).

(** Calling an async method: the promise it returns, as a value. *)
Definition call (A : Type) (f : world -> promise A * world)
  : action (promise A) :=
  fun w => let (p, w') := f w in (Return p, w').

(** [Promise.all]: the values in order when every promise fulfils,
    otherwise the reason of the promise that rejects first. *)
Fixpoint fulfilled (A : Type) (ps : list (promise A)) : list A :=
  match ps with
  | [] => []
  | p :: rest =>
      match result p with
      | Return a => a :: fulfilled rest
      | Throw _ => fulfilled rest
      end
  end.

Fixpoint earliest_rejection (A : Type) (ps : list (promise A))
  : option (nat * thrown) :=
  match ps with
  | [] => None
  | p :: rest =>
      match result p with
      | Return _ => earliest_rejection rest
      | Throw e =>
          match earliest_rejection rest with
          | Some (t, e') =>
              if (t <? settles_at p)%nat then Some (t, e')
              else Some (settles_at p, e)
          | None => Some (settles_at p, e)
          end
      end
  end.

Definition Promise_all (A : Type) (ps : list (promise A))
  : completion (list A) :=
  match earliest_rejection ps with
  | Some (_, e) => Throw e
  | None => Return (fulfilled ps)
  end.

(** [Array.from({ length }, (_, index) => f(index))], from [index] on. *)
Fixpoint Array_from (A : Type) (length index : nat) (f : nat -> action A)
  : action (list A) :=
  match length with
  | O => ret []
  | S remaining =>
      x <- f index ;;
      xs <- Array_from remaining (S index) f ;;
      ret (x :: xs)
  end.

(** [concurrentRequests] (source lines 130-168); [concurrency] defaults
    to 10 and is taken as the array length it is used for. *)
Definition concurrentRequests (this : ApiClient) (endpoint : jsstring)
  (concurrency : option nat) : action (list ApiResponse) :=
  let concurrency := match concurrency with Some n => n | None => 10%nat end in
  log (LoadTestStart concurrency endpoint) ;;
  (* Create array of request promises *)
  requestPromises <-
    Array_from concurrency 0
      (fun index =>
         log (LoadTestInitiating (index + 1) concurrency) ;;
         call (get this endpoint no_options)) ;;
  catch
    ((* Execute all requests concurrently *)
     responses <- lift (Promise_all requestPromises) ;;
     log (LoadTestCompleted concurrency) ;;
     (* Count successful responses *)
     let successCount :=
       List.length
         (filter (fun r => num_strict_equals (status r) (of_Z 200))
                 responses) in
     log (LoadTestSuccessRate successCount concurrency) ;;
     ret responses)
    (fun error =>
       log (LoadTestFailed error) ;;
       throw error).

(** [healthCheck] (source lines 173-181). *)
Definition healthCheck (this : ApiClient) : action bool :=
  catch
    (pending <-
       call (get this (js "/health")
               {| expectedStatus := Some (of_Z 200);
                  timeout := None; headers := None |}) ;;
     response <- await pending ;;
     ret (num_strict_equals (status response) (of_Z 200)))
    (fun error =>
       log (HealthCheckFailed error) ;;
       ret false).

End Client.

(* ===================================================================== *)
(** ** Vocabulary of the statements, and sample data *)
(* ===================================================================== *)

Module Notions.
Import JS Types Validators Client.

(** The item predicate of a call of [validateArrayResponse]. *)
Definition accepts (validator : item_validator)
  (validatorArgs : list unknown) (item : value) : bool :=
  validator (Some item) validatorArgs.

(** The request a call of [get] issues. *)
Definition request_of (this : ApiClient) (endpoint : jsstring)
  (options : get_options) : Playwright.request :=
  {| Playwright.url := baseUrl this ++ endpoint;
     Playwright.options :=
       {| Playwright.headers :=
            spread [(js "Accept", js "application/json")]
                   (match headers options with Some h => h | None => [] end);
          Playwright.timeout :=
            match timeout options with Some n => n | None => of_Z 10000 end
       |} |}.

(** What the [k]-th request through the client's context meets when it is
    the request of such a call. *)
Definition meets (this : ApiClient) (endpoint : jsstring)
  (options : get_options) (k : nat) : Playwright.exchange :=
  request this k (request_of this endpoint options).

(** The same options with another [expectedStatus]. *)
Definition with_expectedStatus (expected : option number)
  (options : get_options) : get_options :=
  {| expectedStatus := expected;
     timeout := timeout options;
     headers := headers options |}.

(** [{ expectedStatus: 200 }], the options of the health check. *)
Definition health_options : get_options :=
  {| expectedStatus := Some (of_Z 200); timeout := None; headers := None |}.

(** The HTTP exchange completed and its body parsed to [body]. *)
Definition completes_with (x : Playwright.exchange)
  (response : Playwright.APIResponse) (body : value) : Prop :=
  Playwright.outcome x = Return response
  /\ Playwright.json response = Return body.

(** The HTTP exchange completed but [json()] threw. *)
Definition body_unparsable (x : Playwright.exchange) : Prop :=
  exists response parseError,
    Playwright.outcome x = Return response
    /\ Playwright.json response = Throw parseError.

(** The transport itself failed (connection refused, timeout). *)
Definition transport_fails (x : Playwright.exchange) (error : thrown) : Prop :=
  Playwright.outcome x = Throw error.

(** The status is a success status: in [200, 300). *)
Definition in_2xx (s : Z) : Prop := (200 <= s < 300)%Z.

(** The message of the error [get] throws for a failure with message
    [cause]. *)
Definition failure_message (url cause : jsstring) : jsstring :=
  js "API request to " ++ url ++ js " failed: " ++ cause.

(** What the promise of a [get] to [url] settles to, read off the
    exchange ([get_result] below relates it to [get]). *)
Definition settles_to (url : jsstring) (x : Playwright.exchange)
  : completion ApiResponse :=
  match Playwright.outcome x with
  | Throw error =>
      Throw (ErrorObject (failure_message url (message_or_string error)))
  | Return response =>
      match Playwright.json response with
      | Throw _ =>
          Throw (ErrorObject
                   (failure_message url
                      (js "Invalid JSON response from " ++ url)))
      | Return body =>
          let success :=
            ((200 <=? Playwright.status response)
             && (Playwright.status response <? 300))%Z in
          Return {| data := if success then Some body else None;
                    error := if success then None else Some body;
                    status := of_Z (Playwright.status response);
                    Types.headers :=
                      Some (fromEntries (Playwright.headersArray response))
                 |}
      end
  end.

(** What the [k]-th request through the context settles to when it is one
    of the requests of [concurrentRequests]. *)
Definition batch_settles_to (this : ApiClient) (endpoint : jsstring)
  (k : nat) : completion ApiResponse :=
  settles_to (baseUrl this ++ endpoint) (meets this endpoint no_options k).

End Notions.

Module Samples.
Import JS Types Validators Client.

(** A comment whose [id] is the number zero: guarded as a [Comment], with
    a well-formed e-mail address and text in every field. *)
Definition comment_with_id_zero : unknown :=
  Some (VObj [(js "postId", VNum (of_Z 1));
              (js "id", VNum (of_Z 0));
              (js "name", VStr (js "id labore ex et quam laborum"));
              (js "email", VStr (js "Eliseo@gardner.biz"));
              (js "body", VStr (js "laudantium enim quasi"))]).

(** An envelope around [data]. *)
Definition envelope_of_data (data : unknown) : ApiResponse :=
  {| data := data; error := None; status := of_Z 200;
     Types.headers := Some (VObj []) |}.

(** An item validator: the item is truthy. *)
Definition is_truthy : item_validator := fun item _ => truthy item.

Definition numbers (zs : list Z) : list value :=
  List.map (fun z => VNum (of_Z z)) zs.

(** A peer that answers every request with [response], one that fails
    every request with [error], and one that fails only the request with
    number [j]. *)
Definition answering (response : Playwright.APIResponse)
  : Playwright.APIRequestContext :=
  fun k _ => {| Playwright.settles_at := k;
                Playwright.outcome := Return response |}.

Definition refusing (error : thrown) : Playwright.APIRequestContext :=
  fun k _ => {| Playwright.settles_at := k;
                Playwright.outcome := Throw error |}.

Definition failing_at (j : nat) (error : thrown)
  (response : Playwright.APIResponse) : Playwright.APIRequestContext :=
  fun k _ => {| Playwright.settles_at := k;
                Playwright.outcome :=
                  if (k =? j)%nat then Throw error else Return response |}.

Definition json_headers : list (jsstring * jsstring) :=
  [(js "content-type", js "application/json; charset=utf-8")].

(** Responses of the mock server: a list, a created resource, an error
    body, and a page that is not JSON. *)
Definition ok_response : Playwright.APIResponse :=
  {| Playwright.status := 200;
     Playwright.json := Return (VArr []);
     Playwright.headersArray := json_headers |}.

Definition created_response : Playwright.APIResponse :=
  {| Playwright.status := 201;
     Playwright.json := Return (VObj [(js "id", VNum (of_Z 101))]);
     Playwright.headersArray := json_headers |}.

Definition not_found_response : Playwright.APIResponse :=
  {| Playwright.status := 404;
     Playwright.json :=
       Return (VObj [(js "error", VStr (js "Not Found"))]);
     Playwright.headersArray := json_headers |}.

Definition html_response : Playwright.APIResponse :=
  {| Playwright.status := 200;
     Playwright.json :=
       Throw (ErrorObject (js "Unexpected token < in JSON at position 0"));
     Playwright.headersArray := [(js "content-type", js "text/html")] |}.

Definition connection_refused : thrown :=
  ErrorObject (js "connect ECONNREFUSED 127.0.0.1:3000").

Definition client_of (context : Playwright.APIRequestContext) : ApiClient :=
  {| request := context; baseUrl := js "http://localhost:3000" |}.

Definition comments : jsstring := js "/posts/1/comments".

End Samples.

(* ===================================================================== *)
(** ** The rest of the three files *)
(* ===================================================================== *)

(** [isHealthResponse] of [src/types/api-responses.ts] (lines 130-138). *)
Module Health.
Import JS Types.

(** [["healthy", "unhealthy"].includes(s)] for a string [s] *)
Definition includes (options : list jsstring) (s : jsstring) : bool :=
  existsb (str_eqb s) options.

Definition isHealthResponse (obj : unknown) : bool :=
  is_object_not_null obj
  && has obj "status" TString
  && includes [js "healthy"; js "unhealthy"] (string_of (field obj "status"))
  && has obj "timestamp" TString.

End Health.

(** Validators handed over as callbacks: [validateArrayResponse] calls
    [validator(item, ...validatorArgs)], a plain call, in which [this] is
    [undefined] and from which a [TypeError] of the validator escapes. *)
Module Callbacks.
Import JS Types Validators.

(** An item validator that may throw. *)
Definition throwing_validator := unknown -> list unknown -> completion bool.

(** The loop of [validateArrayResponse] (source lines 252-258) around
    such a validator: a throw ends the loop and the method. *)
Fixpoint validate_items_throwing (validator : throwing_validator)
  (validatorArgs : list unknown) (n i : nat) (items : list value)
  : completion bool * list event :=
  match items with
  | [] => (Return true, [Console (AllPassed n)])
  | item :: rest =>
      match validator (Some item) validatorArgs with
      | Throw e => (Throw e, [Applied i item])
      | Return accepted =>
          if negb accepted
          then (Return false, [Applied i item; Console (ItemFailed i item)])
          else
            let (result, events) :=
              validate_items_throwing validator validatorArgs n (S i) rest in
            (result, Applied i item :: events)
      end
  end.

(** [validateArrayResponse] (source lines 235-262) around such a
    validator. *)
Definition validateArrayResponse_throwing (response : ApiResponse)
  (validator : throwing_validator) (validatorArgs : list unknown)
  : completion bool * list event :=
  if negb (truthy (data response)) || negb (isArray (data response))
  then (Return false, [Console NotAnArray])
  else
    match data response with
    | Some (VArr items) =>
        if (List.length items =? 0)%nat
        then (Return true, [Console EmptyArray])
        else
          let (result, events) :=
            validate_items_throwing validator validatorArgs
              (List.length items) 0 items
          in (result, Console (ValidatingItems (List.length items)) :: events)
    | _ => (Return false, [Console NotAnArray])
    end.

(** A validator that does not throw, seen as one that may. *)
Definition never_throwing (validator : item_validator) : throwing_validator :=
  fun item args => Return (validator item args).

(** [ResponseValidator.validateCommentObject] as the callback: it has one
    parameter, the rest arguments are not looked at. *)
Definition validateCommentObject_callback : throwing_validator :=
  fun item _ => validateCommentObject item.

(** [validatePhoto] (source lines 113-138) with its [this]: [None] when
    the method is called as a plain function, otherwise the object whose
    [validateUrlFormat] it calls. *)
Definition validatePhoto_on (this : option (jsstring -> bool))
  (photo : unknown) (expectedAlbumId : option number) : completion bool :=
  if negb (isPhoto photo) then Return false
  else
    match this with
    | None => Throw (cannot_read "undefined" "validateUrlFormat")
    | Some this_validateUrlFormat =>
        if negb (this_validateUrlFormat (string_of (field photo "url")))
        then Return false
        else if negb (this_validateUrlFormat
                        (string_of (field photo "thumbnailUrl")))
        then Return false
        else if mismatch expectedAlbumId (number_of (field photo "albumId"))
        then Return false
        else Return true
    end.

(** [validatorArgs[0]] *)
Definition first_argument (args : list unknown) : unknown :=
  match args with
  | [] => None
  | a :: _ => a
  end.

(** The second parameter [expected?: number] of a validator as the rest
    arguments fill it.  The validators only test it with [!== undefined]
    and [!==] against a number; an argument that is neither [undefined]
    nor a number is, like [NaN], [!==] to every number, and stands as
    [NaN]. *)
Definition expected_argument (args : list unknown) : option number :=
  match first_argument args with
  | None => None
  | Some (VNum expected) => Some expected
  | Some _ => Some NaN
  end.

(** A validator of signature [(x: unknown, expected?: number)] that does
    not use [this] ([validateAlbum], [validateTodo], [validatePost]), as
    the callback. *)
Definition with_rest_arguments
  (validate : unknown -> option number -> bool) : item_validator :=
  fun item args => validate item (expected_argument args).

(** [ResponseValidator.validatePhoto] as the callback. *)
Definition validatePhoto_callback : throwing_validator :=
  fun item args => validatePhoto_on None item (expected_argument args).

End Callbacks.

(** [assertResponseTime] of [validators.ts] (lines 267-275) and
    [validateResponseTime] of [api-client.ts] (lines 104-125). *)
Module Timing.
Import JS Types Client.

(** [a <= b] on numbers. *)
Definition num_le (a b : number) : bool :=
  match a, b with
  | NaN, _ | _, NaN => false
  | NegInfinity, _ => true
  | _, PosInfinity => true
  | PosInfinity, _ => false
  | _, NegInfinity => false
  | Finite p, Finite q => Qle_bool p q
  | Finite p, NegZero => Qle_bool p 0
  | NegZero, Finite q => Qle_bool 0 q
  | NegZero, NegZero => true
  end.

Section WithExpect.

(** The error [expect(received).toBeLessThanOrEqual(expected)] throws when
    it fails; its text belongs to the test framework. *)
Variable toBeLessThanOrEqual_error : number -> number -> thrown.

(** [expect(received).toBeLessThanOrEqual(expected)] *)
Definition expect_toBeLessThanOrEqual (received expected : number)
  : completion unit :=
  if num_le received expected then Return tt
  else Throw (toBeLessThanOrEqual_error received expected).

Definition assertResponseTime (actualTime : number) (maxTime : option number)
  : completion unit :=
  let maxTime := match maxTime with Some n => n | None => of_Z 2000 end in
  expect_toBeLessThanOrEqual actualTime maxTime.

(** The readings of [Date.now()] a call of [validateResponseTime] takes
    itself, in order: at its start, and when [get] has settled.  (A third
    one, taken in the handler after a failed expectation, only feeds a
    console line.) *)
Variable startTime : Z.
Variable settledTime : Z.

Local Notation "x <- c ;; k" := (bind c (fun x => k))
  (at level 61, c at next level, right associativity).
Local Notation "c ;; k" := (bind c (fun _ => k))
  (at level 61, right associativity).

(** [validateResponseTime]; its two [Performance] console lines are not
    recorded. *)
Definition validateResponseTime (this : ApiClient) (endpoint : jsstring)
  (maxResponseTime : option number) : action Z :=
  let maxResponseTime :=
    match maxResponseTime with Some n => n | None => of_Z 2000 end in
  catch
    (pending <- call (get this endpoint no_options) ;;
     await pending ;;
     let responseTime := (settledTime - startTime)%Z in
     (* Assert response time is within limits *)
     lift (expect_toBeLessThanOrEqual (of_Z responseTime) maxResponseTime) ;;
     ret responseTime)
    (fun error => throw error).

End WithExpect.

End Timing.

(** Vocabulary of the further statements, and further sample data. *)
Module Terms.
Import JS Types Validators Client.

(** The code unit of ["@"]. *)
Definition at_sign : N := 64%N.

(** How often a code unit occurs in a string. *)
Definition occurrences (c : N) (s : jsstring) : nat :=
  List.length (filter (N.eqb c) s).

(** The object [obj] with its property [k] set to [v]; other values are
    left as they are. *)
Definition with_property (k : string) (v : value) (obj : unknown) : unknown :=
  match obj with
  | Some (VObj fields) => Some (VObj (set_prop (js k) v fields))
  | _ => obj
  end.

(** The value of the last entry named [k], as an assignment in sequence
    leaves it. *)
Definition last_named (V : Type) (k : jsstring) (entries : list (jsstring * V))
  : option V :=
  lookup k (rev entries).

(** [headers[name]] of an envelope, where it is a string. *)
Definition header (envelope : ApiResponse) (name : jsstring) : option jsstring :=
  match Types.headers envelope with
  | Some (VObj fields) =>
      match lookup name fields with
      | Some (VStr s) => Some s
      | _ => None
      end
  | _ => None
  end.

(** The message starts with the words [get] puts before every cause. *)
Definition rethrown_by_get (url : jsstring) (error : thrown) : Prop :=
  exists cause : jsstring,
    error = ErrorObject (Notions.failure_message url cause).

(** An album of the mock data. *)
Definition album (id userId : Z) (title : string) : value :=
  VObj [(js "userId", VNum (of_Z userId)); (js "id", VNum (of_Z id));
        (js "title", VStr (js title))].

(** A photo of the mock data. *)
Definition photo (id albumId : Z) (title : string) : value :=
  VObj [(js "albumId", VNum (of_Z albumId)); (js "id", VNum (of_Z id));
        (js "title", VStr (js title));
        (js "url", VStr (js "https://via.placeholder.com/600/92c952"));
        (js "thumbnailUrl",
         VStr (js "https://via.placeholder.com/150/92c952"))].

(** A comment of the mock data. *)
Definition comment (id postId : Z) : value :=
  VObj [(js "postId", VNum (of_Z postId)); (js "id", VNum (of_Z id));
        (js "name", VStr (js "id labore ex et quam laborum"));
        (js "email", VStr (js "Eliseo@gardner.biz"));
        (js "body", VStr (js "laudantium enim quasi"))].

(** A stand-in for the platform's URL parser on the sample data: the
    protocol is what precedes the first ["//"], when that ends in a
    colon. *)
Fixpoint sample_protocol (s : jsstring) : option jsstring :=
  match s with
  | [] => None
  | c :: rest =>
      match rest with
      | 47%N :: 47%N :: _ => if (c =? 58)%N then Some [c] else None
      | _ =>
          match sample_protocol rest with
          | Some p => Some (c :: p)
          | None => None
          end
      end
  end.

(** An error of the test framework for the samples. *)
Definition sample_matcher_error (received expected : number) : thrown :=
  ErrorObject (js "expect(received).toBeLessThanOrEqual(expected)").

(** A response that repeats a header name. *)
Definition two_cookies_response : Playwright.APIResponse :=
  {| Playwright.status := 200;
     Playwright.json := Return (VArr []);
     Playwright.headersArray :=
       [(js "set-cookie", js "a=1");
        (js "content-type", js "application/json");
        (js "set-cookie", js "b=2")] |}.

(** A server error whose body is nevertheless a list of albums. *)
Definition error_with_albums : Playwright.APIResponse :=
  {| Playwright.status := 500;
     Playwright.json := Return (VArr [album 1 1 "quidem"]);
     Playwright.headersArray := Samples.json_headers |}.

(** The envelope of [Samples.ok_response]. *)
Definition ok_envelope : ApiResponse :=
  {| data := Some (VArr []); error := None; status := of_Z 200;
     Types.headers := Some (fromEntries Samples.json_headers) |}.

(** A peer that answers the [k]-th request with [answer k], the later
    requests settling first. *)
Definition answering_in_turn (answer : nat -> Playwright.APIResponse)
  : Playwright.APIRequestContext :=
  fun k _ => {| Playwright.settles_at := 100 - k;
                Playwright.outcome := Return (answer k) |}.

(** Found, except for the second request. *)
Definition found_except_second (k : nat) : Playwright.APIResponse :=
  if (k =? 1)%nat then Samples.not_found_response else Samples.ok_response.

(** The sentence the client makes, from the URL, for a body that does not
    parse (source line 60). *)
Definition parse_failure_text (url : jsstring) : jsstring :=
  js "Invalid JSON response from " ++ url.

(** An error as the transport words it (connection refused, timeout,
    ...): its text is the transport's, not the sentence that only the
    client makes. *)
Definition worded_by_the_transport (url : jsstring) (error : thrown) : Prop :=
  message_or_string error <> parse_failure_text url.

(** A peer whose first answer is a page that is not JSON and that refuses
    every later connection, and the world after the first request. *)
Definition html_then_refused : Playwright.APIRequestContext :=
  fun k _ =>
    {| Playwright.settles_at := k;
       Playwright.outcome :=
         if (k =? 0)%nat then Return Samples.html_response
         else Throw Samples.connection_refused |}.

Definition after_one_request : world :=
  {| issued :=
       [Notions.request_of (Samples.client_of html_then_refused)
          Samples.comments no_options];
     console := [] |}.

End Terms.

(* ===================================================================== *)
(** * Properties *)
(* ===================================================================== *)

(** ** The matcher decides the language of its pattern *)

Section MatcherCorrect.
Import JS RegExp.

Lemma Lang_nil_nullable (r : regex) : Lang r [] -> nullable r = true.
Proof.
  intro H. remember (@nil N) as s eqn:Es.
  induction H; simpl; try reflexivity; try discriminate.
  - apply app_eq_nil in Es as [E1 E2].
    rewrite (IHLang1 E1), (IHLang2 E2). reflexivity.
  - rewrite (IHLang Es). reflexivity.
  - rewrite (IHLang Es). apply orb_true_r.
Qed.

Lemma nullable_Lang_nil (r : regex) : nullable r = true -> Lang r [].
Proof.
  induction r; simpl; intro H; try discriminate.
  - constructor.
  - apply andb_true_iff in H as [H1 H2].
    change (@nil N) with (@nil N ++ []). constructor; auto.
  - apply orb_true_iff in H as [H | H].
    + apply LOrL; auto.
    + apply LOrR; auto.
  - constructor.
Qed.

Lemma Lang_after (c : N) (r : regex) :
  forall s, Lang (after c r) s -> Lang r (c :: s).
Proof.
  induction r; simpl; intros s H.
  - inversion H.
  - inversion H.
  - destruct (accepts c) eqn:E; inversion H; subst. constructor; exact E.
  - destruct (nullable r1) eqn:E.
    + inversion H; subst.
      * match goal with
        | H' : Lang (Cat _ _) _ |- _ => inversion H'; subst
        end.
        change (c :: s1 ++ s2) with ((c :: s1) ++ s2).
        constructor; auto.
      * change (c :: s) with ([] ++ c :: s).
        constructor; auto using nullable_Lang_nil.
    + inversion H; subst.
      change (c :: s1 ++ s2) with ((c :: s1) ++ s2).
      constructor; auto.
  - inversion H; subst.
    + apply LOrL; auto.
    + apply LOrR; auto.
  - inversion H; subst.
    change (c :: s1 ++ s2) with ((c :: s1) ++ s2).
    constructor; auto.
Qed.

Lemma after_Lang (c : N) (r : regex) (cs : jsstring) :
  Lang r cs -> forall rest, cs = c :: rest -> Lang (after c r) rest.
Proof.
  induction 1; intros rest E; simpl.
  - discriminate.
  - injection E as -> <-. rewrite H. constructor.
  - destruct s1 as [| c1 s1'].
    + simpl in E. rewrite (Lang_nil_nullable H). apply LOrR; auto.
    + injection E as -> <-.
      assert (Lang (Cat (after c r1) r2) (s1' ++ s2)) by (constructor; auto).
      destruct (nullable r1); [apply LOrL |]; assumption.
  - apply LOrL; auto.
  - apply LOrR; auto.
  - discriminate.
  - destruct s1 as [| c1 s1'].
    + simpl in E. apply (IHLang2 rest E).
    + injection E as -> <-. constructor; auto.
Qed.

Lemma test_Lang (s : jsstring) :
  forall r, test r s = true <-> Lang r s.
Proof.
  induction s as [| c s IH]; intro r; simpl.
  - split; [apply nullable_Lang_nil | apply Lang_nil_nullable].
  - rewrite IH. split.
    + apply Lang_after.
    + intro H. apply (after_Lang H eq_refl).
Qed.

(** Runs of one character class. *)
Lemma Lang_Many_Class (f : N -> bool) (s : jsstring) :
  Lang (Many (Class f)) s <-> forallb f s = true.
Proof.
  split.
  - intro H. remember (Many (Class f)) as r eqn:Er.
    induction H; try discriminate; [reflexivity |].
    injection Er as ->. inversion H; subst. simpl.
    rewrite IHLang2 by reflexivity.
    match goal with H' : f _ = true |- _ => rewrite H' end. reflexivity.
  - induction s as [| c s IH]; simpl; intro H.
    + constructor.
    + apply andb_true_iff in H as [Hc Hs].
      change (c :: s) with ([c] ++ s).
      constructor; [constructor; exact Hc | auto].
Qed.

Lemma Lang_Some1_Class (f : N -> bool) (s : jsstring) :
  Lang (Some1 (Class f)) s <-> s <> [] /\ forallb f s = true.
Proof.
  unfold Some1. split.
  - intro H. inversion H; subst.
    match goal with H' : Lang (Class _) _ |- _ => inversion H'; subst end.
    apply Lang_Many_Class in H4. simpl. split; [discriminate |].
    rewrite H4. match goal with H' : f _ = true |- _ => rewrite H' end.
    reflexivity.
  - intros [Hne H]. destruct s as [| c s]; [contradiction |].
    simpl in H. apply andb_true_iff in H as [Hc Hs].
    change (c :: s) with ([c] ++ s).
    constructor; [constructor; exact Hc | apply Lang_Many_Class; exact Hs].
Qed.

Lemma Lang_Cat (r1 r2 : regex) (s : jsstring) :
  Lang (Cat r1 r2) s <->
  exists s1 s2, s = s1 ++ s2 /\ Lang r1 s1 /\ Lang r2 s2.
Proof.
  split.
  - intro H. inversion H; subst. eauto.
  - intros (s1 & s2 & -> & H1 & H2). constructor; assumption.
Qed.

Lemma Lang_one_of (chars : string) (s : jsstring) :
  Lang (Class (Validators.one_of chars)) s <->
  exists c, s = [c] /\ In c (js chars).
Proof.
  unfold Validators.one_of. split.
  - intro H. inversion H; subst. exists c. split; [reflexivity |].
    apply existsb_exists in H1 as (x & Hin & Hx).
    apply N.eqb_eq in Hx. subst. exact Hin.
  - intros (c & -> & Hin). constructor. apply existsb_exists.
    exists c. split; [exact Hin | apply N.eqb_refl].
Qed.

End MatcherCorrect.

(** ** E-mail format *)

Section EmailFormat.
Import JS RegExp Validators.

Lemma Lang_single (chars : string) (c : N) (s : jsstring) :
  js chars = [c] ->
  Lang (Class (one_of chars)) s <-> s = js chars.
Proof.
  intro E. rewrite Lang_one_of, E. split.
  - intros (x & -> & [<- | []]). reflexivity.
  - intros ->. exists c. split; [reflexivity | left; reflexivity].
Qed.

Lemma Lang_plain_run (s : jsstring) :
  Lang (Some1 (Class not_space_or_at)) s <-> plain_run s.
Proof. apply Lang_Some1_Class. Qed.

Lemma emailRegex_language (s : jsstring) :
  Lang emailRegex s <-> matches_simple_email_pattern s.
Proof.
  unfold emailRegex, matches_simple_email_pattern. split.
  - intro H.
    apply Lang_Cat in H as (user & s1 & -> & Huser & H).
    apply Lang_Cat in H as (at_sign & s2 & -> & Hat & H).
    apply Lang_Cat in H as (host & s3 & -> & Hhost & H).
    apply Lang_Cat in H as (dot & tld & -> & Hdot & Htld).
    apply (@Lang_single "@" 64%N _ eq_refl) in Hat.
    apply (@Lang_single "." 46%N _ eq_refl) in Hdot.
    subst. exists user, host, tld.
    rewrite <- !Lang_plain_run. auto.
  - intros (user & host & tld & -> & Huser & Hhost & Htld).
    rewrite <- Lang_plain_run in Huser, Hhost, Htld.
    repeat (constructor; try assumption);
      apply existsb_exists; eexists; (split; [left; reflexivity |]);
      reflexivity.
Qed.

(** C3.  The [validateEmailFormat] that calls reach is the second
    declaration: it accepts a string exactly when the string has the form
    [^[^\s@]+@[^\s@]+\.[^\s@]+$]; it accepts ["a@b.co"] and rejects
    ["not-an-email"] and ["a@b"].  The first declaration, which alone
    would accept ["a@b"], does not take part in the result. *)
Theorem validateEmailFormat_canonical :
  (forall s : jsstring,
      validateEmailFormat s = true <-> matches_simple_email_pattern s)
  /\ validateEmailFormat (js "a@b.co") = true
  /\ validateEmailFormat (js "not-an-email") = false
  /\ validateEmailFormat (js "a@b") = false
  /\ (forall s : jsstring,
         validateEmailFormat s = validateEmailFormat_simple s)
  /\ validateEmailFormat_rfc5322 (js "a@b") = true.
Proof.
  split; [| repeat split; vm_compute; reflexivity].
  intro s.
  change (validateEmailFormat s) with (test emailRegex s).
  rewrite test_Lang. apply emailRegex_language.
Qed.

End EmailFormat.

(** ** Entity validators *)

Section EntityValidators.
Import JS Types Validators Samples.

Lemma has_string (obj : unknown) (k : string) :
  has obj k TString = true -> exists s, field obj k = Some (VStr s).
Proof.
  unfold has. destruct (field obj k) as [[| | | s | |] |]; simpl;
    try discriminate. eauto.
Qed.

Lemma has_number (obj : unknown) (k : string) :
  has obj k TNumber = true -> exists n, field obj k = Some (VNum n).
Proof.
  unfold has. destruct (field obj k) as [[| | n | | |] |]; simpl;
    try discriminate. eauto.
Qed.

Lemma trimmed_text_is_text (s : jsstring) : trim s <> [] -> s <> [].
Proof. intros H ->. apply H. reflexivity. Qed.

Lemma empty_text_false (s : jsstring) : trim s <> [] -> empty_text s = false.
Proof.
  intro H. unfold empty_text. pose proof (trimmed_text_is_text H) as Hs.
  destruct s as [| c s]; [contradiction |].
  destruct (trim (c :: s)); [contradiction | reflexivity].
Qed.

Lemma blank_after_trim_false (s : jsstring) :
  trim s <> [] -> (List.length (trim s) =? 0)%nat = false.
Proof. destruct (trim s); [contradiction | reflexivity]. Qed.

(** C2.  At a comment with [id] 0 that passes [isComment], has a valid
    e-mail address and non-blank [name], [email] and [body],
    [validateCommentObject] returns false: its required-fields test
    [!comment.id] takes the number 0 for a missing field. *)
Theorem validateCommentObject_rejects_id_zero :
  isComment comment_with_id_zero = true
  /\ validateEmailFormat (string_of (field comment_with_id_zero "email")) = true
  /\ trim (string_of (field comment_with_id_zero "name")) <> []
  /\ trim (string_of (field comment_with_id_zero "email")) <> []
  /\ trim (string_of (field comment_with_id_zero "body")) <> []
  /\ validateCommentObject comment_with_id_zero = Return false.
Proof.
  repeat split; try (vm_compute; reflexivity); vm_compute; discriminate.
Qed.

(** With [id] and [postId] that are not falsy the same validator accepts. *)
Lemma validateCommentObject_accepts (comment : unknown) :
  isComment comment = true ->
  truthy (field comment "id") = true ->
  truthy (field comment "postId") = true ->
  validateEmailFormat (string_of (field comment "email")) = true ->
  trim (string_of (field comment "name")) <> [] ->
  trim (string_of (field comment "email")) <> [] ->
  trim (string_of (field comment "body")) <> [] ->
  validateCommentObject comment = Return true.
Proof.
  unfold isComment. intros G Hid Hpost Hmail Hn He Hb.
  repeat (apply andb_true_iff in G as [G ?]).
  assert (Hname : truthy (field comment "name") = true).
  { destruct (has_string comment "name") as [s Es]; [assumption |].
    rewrite Es in Hn |- *. simpl in Hn. apply trimmed_text_is_text in Hn.
    destruct s; [contradiction | reflexivity]. }
  assert (Hemail : truthy (field comment "email") = true).
  { destruct (has_string comment "email") as [s Es]; [assumption |].
    rewrite Es in He |- *. simpl in He. apply trimmed_text_is_text in He.
    destruct s; [contradiction | reflexivity]. }
  assert (Hbody : truthy (field comment "body") = true).
  { destruct (has_string comment "body") as [s Es]; [assumption |].
    rewrite Es in Hb |- *. simpl in Hb. apply trimmed_text_is_text in Hb.
    destruct s; [contradiction | reflexivity]. }
  assert (Hbody' : validateCommentObject comment =
    if negb (truthy (field comment "postId"))
       || negb (truthy (field comment "id"))
       || negb (truthy (field comment "name"))
       || negb (truthy (field comment "email"))
       || negb (truthy (field comment "body"))
    then Return false
    else if negb (has comment "postId" TNumber)
         || negb (has comment "id" TNumber)
         || negb (has comment "name" TString)
         || negb (has comment "email" TString)
         || negb (has comment "body" TString)
    then Return false
    else if negb (validateEmailFormat (string_of (field comment "email")))
    then Return false
    else if (List.length (trim (string_of (field comment "name"))) =? 0)%nat
         || (List.length (trim (string_of (field comment "email"))) =? 0)%nat
         || (List.length (trim (string_of (field comment "body"))) =? 0)%nat
    then Return false
    else Return true).
  { unfold is_object_not_null in G.
    destruct comment as [[| | | | |] |]; try reflexivity; discriminate. }
  rewrite Hbody'.
  rewrite Hid, Hpost, Hname, Hemail, Hbody. simpl.
  repeat match goal with H : has _ _ _ = true |- _ => rewrite H; clear H end.
  simpl. rewrite Hmail. simpl.
  rewrite !blank_after_trim_false by assumption. reflexivity.
Qed.

(** The validators built on the shape guards accept every guarded value
    that meets their further rules, whatever the numbers in [id] and in
    the foreign key. *)
Lemma mismatch_none (actual : number) : mismatch None actual = false.
Proof. reflexivity. Qed.

Lemma mismatch_equal (expected actual : number) :
  num_strict_equals actual expected = true ->
  mismatch (Some expected) actual = false.
Proof. intro H. simpl. rewrite H. reflexivity. Qed.

Lemma validatePhoto_accepts (URL_protocol : jsstring -> option jsstring)
  (photo : unknown) (expectedAlbumId : option number) :
  isPhoto photo = true ->
  validateUrlFormat URL_protocol (string_of (field photo "url")) = true ->
  validateUrlFormat URL_protocol (string_of (field photo "thumbnailUrl"))
    = true ->
  mismatch expectedAlbumId (number_of (field photo "albumId")) = false ->
  validatePhoto URL_protocol photo expectedAlbumId = true.
Proof.
  intros G U1 U2 K. unfold validatePhoto. rewrite G, U1, U2, K. reflexivity.
Qed.

Lemma validateAlbum_accepts (album : unknown)
  (expectedUserId : option number) :
  isAlbum album = true ->
  mismatch expectedUserId (number_of (field album "userId")) = false ->
  trim (string_of (field album "title")) <> [] ->
  validateAlbum album expectedUserId = true.
Proof.
  intros G K T. unfold validateAlbum.
  rewrite G, K, (@empty_text_false _ T). reflexivity.
Qed.

Lemma validateTodo_accepts (todo : unknown)
  (expectedUserId : option number) :
  isTodo todo = true ->
  mismatch expectedUserId (number_of (field todo "userId")) = false ->
  trim (string_of (field todo "title")) <> [] ->
  validateTodo todo expectedUserId = true.
Proof.
  intros G K T. unfold validateTodo.
  rewrite G, K, (@empty_text_false _ T).
  unfold isTodo in G. apply andb_true_iff in G as [_ ->]. reflexivity.
Qed.

Lemma validatePost_accepts (post : unknown)
  (expectedUserId : option number) :
  isPost post = true ->
  mismatch expectedUserId (number_of (field post "userId")) = false ->
  trim (string_of (field post "title")) <> [] ->
  trim (string_of (field post "body")) <> [] ->
  validatePost post expectedUserId = true.
Proof.
  intros G K T B. unfold validatePost.
  rewrite G, K, (@empty_text_false _ T), (@empty_text_false _ B). reflexivity.
Qed.

(** An album with [id] and [userId] 0 is accepted. *)
Example validateAlbum_accepts_zero :
  validateAlbum
    (Some (VObj [(js "userId", VNum (of_Z 0)); (js "id", VNum (of_Z 0));
                 (js "title", VStr (js "quidem molestiae enim"))]))
    (Some (of_Z 0)) = true.
Proof. vm_compute. reflexivity. Qed.

End EntityValidators.

(** ** Array validation *)

Section ArrayValidation.
Import JS Types Validators Notions.

Variable validator : item_validator.
Variable validatorArgs : list unknown.

Lemma validate_items_all_accepted (n : nat) (items : list value) :
  forall i,
    (forall x, In x items -> accepts validator validatorArgs x = true) ->
    fst (validate_items validator validatorArgs n i items) = true
    /\ applied_indices (snd (validate_items validator validatorArgs n i items))
       = seq i (List.length items).
Proof.
  induction items as [| x items IH]; intros i Hall; simpl.
  - split; reflexivity.
  - assert (Hx : validator (Some x) validatorArgs = true)
      by (apply Hall; left; reflexivity).
    rewrite Hx. simpl.
    destruct (IH (S i)) as [Hr Ha]; [intros y Hy; apply Hall; right; exact Hy |].
    destruct (validate_items validator validatorArgs n (S i) items)
      as [result events].
    simpl in *. rewrite Ha. split; [exact Hr | reflexivity].
Qed.

Lemma validate_items_first_rejected (n k : nat) :
  forall (items : list value) (i : nat) (item : value),
    nth_error items k = Some item ->
    (forall j x, j < k -> nth_error items j = Some x -> accepts validator validatorArgs x = true) ->
    accepts validator validatorArgs item = false ->
    let run := validate_items validator validatorArgs n i items in
    fst run = false
    /\ applied_indices (snd run) = seq i (S k)
    /\ reported_indices (snd run) = [i + k].
Proof.
  induction k as [| k IH]; intros [| x items] i item Hk Hbefore Hrej;
    try discriminate; simpl in Hk |- *.
  - injection Hk as ->. unfold accepts in Hrej. rewrite Hrej. simpl.
    rewrite Nat.add_0_r. repeat split.
  - assert (Hx : validator (Some x) validatorArgs = true)
      by (apply (Hbefore 0 x); [lia | reflexivity]).
    rewrite Hx. simpl.
    destruct (IH items (S i) item Hk) as (Hr & Ha & Hp); [| exact Hrej |].
    { intros j y Hj Hy. apply (Hbefore (S j) y); [lia | exact Hy]. }
    destruct (validate_items validator validatorArgs n (S i) items)
      as [result events].
    simpl in *. rewrite Ha, Hp. repeat split; [exact Hr |].
    f_equal. lia.
Qed.

End ArrayValidation.

(** C4.  On an envelope whose [data] is an array: when the item predicate
    accepts every element below index [k] and rejects the element at [k],
    [validateArrayResponse] returns false, has applied the predicate at
    the indices 0..k and at no index beyond [k], and reports index [k];
    when the predicate accepts every element, it returns true. *)
Theorem validateArrayResponse_short_circuits
  (response : Types.ApiResponse) (items : list JS.value)
  (validator : Validators.item_validator) (validatorArgs : list JS.unknown) :
  Types.data response = Some (JS.VArr items) ->
  let run := Validators.validateArrayResponse response validator validatorArgs in
  (forall (k : nat) (item : JS.value),
      nth_error items k = Some item ->
      (forall j x, j < k -> nth_error items j = Some x ->
                   Notions.accepts validator validatorArgs x = true) ->
      Notions.accepts validator validatorArgs item = false ->
      fst run = false
      /\ Validators.applied_indices (snd run) = seq 0 (S k)
      /\ (forall j, In j (Validators.applied_indices (snd run)) -> j <= k)
      /\ Validators.reported_indices (snd run) = [k])
  /\ ((forall x, In x items -> Notions.accepts validator validatorArgs x = true) ->
      fst run = true).
Proof.
  intros Hdata run. subst run. unfold Validators.validateArrayResponse.
  rewrite Hdata. simpl. split.
  - intros k item Hk Hbefore Hrej.
    destruct items as [| x items]; [destruct k; discriminate |].
    simpl Nat.eqb. cbv iota.
    destruct (@validate_items_first_rejected validator validatorArgs
                (List.length (x :: items)) k (x :: items) 0 item
                Hk Hbefore Hrej)
      as (Hr & Ha & Hp).
    destruct (Validators.validate_items validator validatorArgs
                (List.length (x :: items)) 0 (x :: items)) as [result events].
    simpl in Hr, Ha, Hp. cbn [fst snd Validators.applied_indices
                              Validators.reported_indices].
    rewrite Ha, Hp.
    split; [exact Hr | split; [reflexivity | split; [| reflexivity]]].
    intros j Hj. change (0 :: seq 1 k) with (seq 0 (S k)) in Hj.
    apply in_seq in Hj. lia.
  - intro Hall. destruct items as [| x items]; [reflexivity |].
    simpl Nat.eqb. cbv iota.
    destruct (@validate_items_all_accepted validator validatorArgs
                (List.length (x :: items)) (x :: items) 0 Hall) as [Hr _].
    destruct (Validators.validate_items validator validatorArgs
                (List.length (x :: items)) 0 (x :: items)) as [result events].
    exact Hr.
Qed.

Lemma validateArrayResponse_short_circuits_witness :
  (let run :=
     Validators.validateArrayResponse
       (Samples.envelope_of_data
          (Some (JS.VArr (Samples.numbers [1; 2; 0; 3]%Z))))
       Samples.is_truthy [] in
   fst run = false
   /\ Validators.applied_indices (snd run) = seq 0 3
   /\ (forall j, In j (Validators.applied_indices (snd run)) -> j <= 2)
   /\ Validators.reported_indices (snd run) = [2])
  /\ fst (Validators.validateArrayResponse
            (Samples.envelope_of_data
               (Some (JS.VArr (Samples.numbers [1; 2]%Z))))
            Samples.is_truthy []) = true.
Proof.
  split.
  - apply (proj1 (@validateArrayResponse_short_circuits
                    (Samples.envelope_of_data
                       (Some (JS.VArr (Samples.numbers [1; 2; 0; 3]%Z))))
                    _ Samples.is_truthy [] eq_refl)
             2 (JS.VNum (JS.of_Z 0))).
    + reflexivity.
    + intros j x Hj Hx.
      destruct j as [| [| j]]; [| | lia]; injection Hx as <-; reflexivity.
    + reflexivity.
  - apply (proj2 (@validateArrayResponse_short_circuits
                    (Samples.envelope_of_data
                       (Some (JS.VArr (Samples.numbers [1; 2]%Z))))
                    _ Samples.is_truthy [] eq_refl)).
    intros x [<- | [<- | []]]; reflexivity.
Defined.

(** C5.  On an envelope whose [data] is the empty array
    [validateArrayResponse] returns true, and on an envelope whose [data]
    is undefined or is not an array it returns false; in both cases the
    item predicate is not applied at all. *)
Theorem validateArrayResponse_without_items
  (response : Types.ApiResponse)
  (validator : Validators.item_validator) (validatorArgs : list JS.unknown) :
  let run := Validators.validateArrayResponse response validator validatorArgs in
  (Types.data response = Some (JS.VArr []) ->
   fst run = true /\ Validators.applied_indices (snd run) = [])
  /\ (Types.data response = None \/ JS.isArray (Types.data response) = false ->
      fst run = false /\ Validators.applied_indices (snd run) = []).
Proof.
  unfold Validators.validateArrayResponse. split.
  - intros ->. split; reflexivity.
  - intros [-> | H]; [split; reflexivity |].
    rewrite H, orb_true_r. split; reflexivity.
Qed.

Lemma validateArrayResponse_without_items_witness :
  (fst (Validators.validateArrayResponse
          (Samples.envelope_of_data (Some (JS.VArr [])))
          Samples.is_truthy []) = true
   /\ Validators.applied_indices
        (snd (Validators.validateArrayResponse
                (Samples.envelope_of_data (Some (JS.VArr [])))
                Samples.is_truthy [])) = [])
  /\ (fst (Validators.validateArrayResponse
             (Samples.envelope_of_data (Some (JS.VObj [])))
             Samples.is_truthy []) = false
      /\ Validators.applied_indices
           (snd (Validators.validateArrayResponse
                   (Samples.envelope_of_data (Some (JS.VObj [])))
                   Samples.is_truthy [])) = []).
Proof.
  split.
  - apply (proj1 (validateArrayResponse_without_items
                    (Samples.envelope_of_data (Some (JS.VArr [])))
                    Samples.is_truthy [])).
    reflexivity.
  - apply (proj2 (validateArrayResponse_without_items
                    (Samples.envelope_of_data (Some (JS.VObj [])))
                    Samples.is_truthy [])).
    right. reflexivity.
Defined.

(** ** The envelope assertion *)

Section EnvelopeAssertion.
Import JS Types Validators.

Lemma expect_passed (holds : bool) (what : expectation) :
  expect holds what = Passed <-> holds = true.
Proof. destruct holds; simpl; split; congruence. Qed.

Lemma and_then_passed (first next : checked) :
  and_then first next = Passed <-> first = Passed /\ next = Passed.
Proof.
  destruct first; simpl; split; try tauto.
  intro H. discriminate.
Qed.

Lemma is_defined_true (x : unknown) : is_defined x = true <-> x <> None.
Proof. destruct x; simpl; split; congruence. Qed.

Lemma is_defined_false (x : unknown) : negb (is_defined x) = true <-> x = None.
Proof. destruct x; simpl; split; congruence. Qed.

Lemma typeof_object (x : unknown) :
  jstype_eqb (typeof x) TObject = true <-> typeof x = TObject.
Proof. destruct (typeof x); simpl; split; congruence. Qed.

End EnvelopeAssertion.

(** C6.  [validateApiResponse(response, expected)] returns normally
    exactly when [response.status] is the expected value, [data] is
    defined and [error] undefined if [expected === 200], [error] is
    defined and [data] undefined for any other expected code, and
    [headers] is defined with [typeof] ["object"]; in every other case it
    ends with an assertion failure.  In particular it fails at status 200
    with expected 200 when [data] and [error] are both undefined.  An
    omitted [expected] stands for 200. *)
Theorem validateApiResponse_passes_iff
  (response : Types.ApiResponse) (expected : JS.number) :
  (Validators.validateApiResponse response (Some expected) = Validators.Passed
   <->
   JS.num_same_value (Types.status response) expected = true
   /\ (JS.num_strict_equals expected (JS.of_Z 200) = true ->
       Types.data response <> None /\ Types.error response = None)
   /\ (JS.num_strict_equals expected (JS.of_Z 200) = false ->
       Types.error response <> None /\ Types.data response = None)
   /\ Types.headers response <> None
   /\ JS.typeof (Types.headers response) = JS.TObject)
  /\ (Validators.validateApiResponse response (Some expected)
        <> Validators.Passed ->
      exists failed,
        Validators.validateApiResponse response (Some expected)
        = Validators.AssertionFailure failed)
  /\ (Types.status response = JS.of_Z 200 ->
      Types.data response = None ->
      Validators.validateApiResponse response (Some (JS.of_Z 200))
      = Validators.AssertionFailure Validators.DataToBeDefined)
  /\ Validators.validateApiResponse response None
     = Validators.validateApiResponse response (Some (JS.of_Z 200)).
Proof.
  split; [| split; [| split]].
  - unfold Validators.validateApiResponse.
    rewrite !and_then_passed, !expect_passed.
    destruct (JS.num_strict_equals expected (JS.of_Z 200)).
    + rewrite !and_then_passed, !expect_passed.
      rewrite is_defined_true, is_defined_false, is_defined_true,
        typeof_object.
      intuition congruence.
    + rewrite !and_then_passed, !expect_passed.
      rewrite is_defined_true, is_defined_false, is_defined_true,
        typeof_object.
      intuition congruence.
  - destruct (Validators.validateApiResponse response (Some expected)).
    + congruence.
    + eauto.
  - intros Hs Hd. unfold Validators.validateApiResponse.
    rewrite Hs, Hd. reflexivity.
  - reflexivity.
Qed.

Lemma validateApiResponse_passes_iff_witness :
  Validators.validateApiResponse
    (Samples.envelope_of_data (Some (JS.VArr []))) (Some (JS.of_Z 200))
  = Validators.Passed
  /\ Validators.validateApiResponse
       (Samples.envelope_of_data None) (Some (JS.of_Z 200))
     = Validators.AssertionFailure Validators.DataToBeDefined.
Proof.
  split.
  - apply (proj1 (validateApiResponse_passes_iff
                    (Samples.envelope_of_data (Some (JS.VArr [])))
                    (JS.of_Z 200))).
    simpl. repeat split; try reflexivity; discriminate.
  - apply (proj1 (proj2 (proj2 (validateApiResponse_passes_iff
                                  (Samples.envelope_of_data None)
                                  (JS.of_Z 200))))); reflexivity.
Defined.

(** ** The client *)

Section ClientFacts.
Import JS Types Client Notions.

Variable this : ApiClient.
Variable endpoint : jsstring.

Lemma get_issued (options : get_options) (w : world) :
  issued (snd (get this endpoint options w))
  = issued w ++ [request_of this endpoint options].
Proof.
  unfold get, request_of, request_get, catch, bind, lift, log, when, ret,
    throw.
  cbn [issued console fst snd].
  destruct (Playwright.outcome _) as [response | error]; [| reflexivity].
  cbn [issued console fst snd].
  destruct (Playwright.json response) as [body | parseError];
    [| reflexivity].
  cbn [issued console fst snd].
  destruct (status_differs _ _); reflexivity.
Qed.

Lemma get_result (options : get_options) (w : world) :
  result (fst (get this endpoint options w))
  = settles_to (baseUrl this ++ endpoint)
      (meets this endpoint options (List.length (issued w))).
Proof.
  unfold get, settles_to, meets, request_of, request_get, catch, bind, lift,
    log, when, ret, throw, failure_message.
  cbn [issued console fst snd].
  destruct (Playwright.outcome _) as [response | error]; [| reflexivity].
  cbn [issued console fst snd].
  destruct (Playwright.json response) as [body | parseError];
    [| reflexivity].
  cbn [issued console fst snd].
  destruct (status_differs _ _); cbn [result fst];
    destruct ((200 <=? Playwright.status response)
              && (Playwright.status response <? 300))%Z; reflexivity.
Qed.

Lemma get_settles_at (options : get_options) (w : world) :
  settles_at (fst (get this endpoint options w))
  = Playwright.settles_at
      (meets this endpoint options (List.length (issued w))).
Proof.
  unfold get, meets, request_of, request_get, catch, bind, lift,
    log, when, ret, throw.
  cbn [issued console fst snd].
  destruct (Playwright.outcome _) as [response | error]; [| reflexivity].
  cbn [issued console fst snd].
  destruct (Playwright.json response) as [body | parseError];
    [| reflexivity].
  cbn [issued console fst snd].
  destruct (status_differs _ _); reflexivity.
Qed.

End ClientFacts.

Section NumberFacts.
Import JS.

Lemma strict_equals_of_Z (a b : Z) :
  num_strict_equals (of_Z a) (of_Z b) = (a =? b)%Z.
Proof.
  simpl. apply eq_true_iff_eq.
  rewrite Qeq_bool_iff, Z.eqb_eq. unfold Qeq, inject_Z. simpl. lia.
Qed.

Lemma same_value_of_Z (a b : Z) :
  num_same_value (of_Z a) (of_Z b) = (a =? b)%Z.
Proof. apply strict_equals_of_Z. Qed.

(** A number that [Object.is] identifies with an integer compares with
    200 as that integer does. *)
Lemma same_value_then_strict (a : Z) (n : number) :
  num_same_value (of_Z a) n = true ->
  num_strict_equals n (of_Z 200) = (a =? 200)%Z.
Proof.
  destruct n as [q | | | |]; simpl; try discriminate.
  intro H. apply Qeq_bool_iff in H. apply eq_true_iff_eq.
  rewrite Qeq_bool_iff, Z.eqb_eq, <- H.
  unfold Qeq, inject_Z. simpl. lia.
Qed.

End NumberFacts.

(** C1.  When the exchange completes and the body parses, [get] returns an
    envelope whose [data] is the parsed body and whose [error] is
    undefined exactly when the status is in [200, 300), and whose [error]
    is the parsed body and [data] undefined otherwise; [status] and
    [headers] are those of the response; [data] and [error] are never
    both defined; and the envelope is the same for every [expectedStatus]
    the caller may pass. *)
Theorem get_classifies_by_status
  (this : Client.ApiClient) (endpoint : JS.jsstring)
  (options : Client.get_options) (w : Client.world)
  (response : Playwright.APIResponse) (body : JS.value) :
  Notions.completes_with
    (Notions.meets this endpoint options (List.length (Client.issued w)))
    response body ->
  exists envelope : Types.ApiResponse,
    Client.result (fst (Client.get this endpoint options w)) = JS.Return envelope
    /\ (Types.data envelope = Some body /\ Types.error envelope = None
        <-> Notions.in_2xx (Playwright.status response))
    /\ (Types.error envelope = Some body /\ Types.data envelope = None
        <-> ~ Notions.in_2xx (Playwright.status response))
    /\ Types.status envelope = JS.of_Z (Playwright.status response)
    /\ Types.headers envelope
       = Some (JS.fromEntries (Playwright.headersArray response))
    /\ ~ (Types.data envelope <> None /\ Types.error envelope <> None)
    /\ (forall expected : option JS.number,
           Client.result
             (fst (Client.get this endpoint
                     (Notions.with_expectedStatus expected options) w))
           = JS.Return envelope).
Proof.
  intros [Hout Hjson].
  pose proof (get_result this endpoint options w) as Hget.
  unfold Notions.settles_to in Hget. rewrite Hout, Hjson in Hget.
  eexists. split; [exact Hget |]. cbn [Types.data Types.error Types.status
                                        Types.headers].
  unfold Notions.in_2xx.
  destruct ((200 <=? Playwright.status response)
            && (Playwright.status response <? 300))%Z eqn:E.
  - apply andb_true_iff in E as [E1 E2].
    apply Z.leb_le in E1. apply Z.ltb_lt in E2.
    split; [split; [intros _; lia | intros _; split; reflexivity] |].
    split; [split; [intros [H _]; discriminate | intro H; exfalso; apply H; lia]
           |].
    split; [reflexivity |]. split; [reflexivity |].
    split; [intros [_ H]; apply H; reflexivity |].
    intros expected. rewrite get_result.
    unfold Notions.settles_to, Notions.meets, Notions.request_of in *.
    cbn [Notions.with_expectedStatus Client.timeout Client.headers].
    rewrite Hout, Hjson.
    replace ((200 <=? Playwright.status response)
             && (Playwright.status response <? 300))%Z with true
      by (symmetry; apply andb_true_iff; split;
          [apply Z.leb_le | apply Z.ltb_lt]; lia).
    reflexivity.
  - assert (Hn : ~ (200 <= Playwright.status response < 300)%Z).
    { intros [H1 H2]. apply Z.leb_le in H1. apply Z.ltb_lt in H2.
      rewrite H1, H2 in E. discriminate. }
    split; [split; [intros [H _]; discriminate | intro H; contradiction] |].
    split; [split; [intros _; exact Hn | intros _; split; reflexivity] |].
    split; [reflexivity |]. split; [reflexivity |].
    split; [intros [H _]; apply H; reflexivity |].
    intros expected. rewrite get_result.
    unfold Notions.settles_to, Notions.meets, Notions.request_of in *.
    cbn [Notions.with_expectedStatus Client.timeout Client.headers].
    rewrite Hout, Hjson, E. reflexivity.
Qed.

Lemma get_classifies_by_status_witness :
  exists envelope : Types.ApiResponse,
    Client.result
      (fst (Client.get (Samples.client_of
                          (Samples.answering Samples.not_found_response))
              Samples.comments Client.no_options Client.fresh))
    = JS.Return envelope
    /\ Types.error envelope
       = Some (JS.VObj [(JS.js "error", JS.VStr (JS.js "Not Found"))])
    /\ Types.data envelope = None
    /\ Types.status envelope = JS.of_Z 404.
Proof.
  destruct (@get_classifies_by_status
              (Samples.client_of
                 (Samples.answering Samples.not_found_response))
              Samples.comments Client.no_options Client.fresh
              Samples.not_found_response
              (JS.VObj [(JS.js "error", JS.VStr (JS.js "Not Found"))]))
    as (envelope & Hget & _ & Herror & Hstatus & _).
  - split; reflexivity.
  - exists envelope. split; [exact Hget |].
    destruct (proj2 Herror) as [He Hd].
    + unfold Notions.in_2xx. simpl. lia.
    + repeat split; assumption.
Defined.

Section FailureMessages.
Import JS Notions.

(** The cause can be read back from the message [get] makes of it. *)
Lemma failure_message_inj (url cause cause' : jsstring) :
  failure_message url cause = failure_message url cause' -> cause = cause'.
Proof.
  unfold failure_message. intro H.
  apply app_inv_head in H. apply app_inv_head in H.
  apply app_inv_head in H. exact H.
Qed.

End FailureMessages.

(** C7.  When the exchange completes but the body does not parse, [get]
    throws and returns no envelope: the error says "API request to <url>
    failed: Invalid JSON response from <url>".  A failure of the
    transport is thrown as "API request to <url> failed: " followed by
    the transport's own message, so the two errors are one and the same
    only if the transport's message were itself the client's sentence
    "Invalid JSON response from <url>"; from the error of every failure
    that the transport words itself, the parse failure is distinct. *)
Theorem get_parse_failure_is_distinct
  (this : Client.ApiClient) (endpoint : JS.jsstring)
  (options : Client.get_options) (w : Client.world)
  (options' : Client.get_options) (w' : Client.world) :
  let url := Client.baseUrl this ++ endpoint in
  let settled := Client.result (fst (Client.get this endpoint options w)) in
  let settled' :=
    Client.result (fst (Client.get this endpoint options' w')) in
  Notions.body_unparsable
    (Notions.meets this endpoint options (List.length (Client.issued w))) ->
  settled
  = JS.Throw (JS.ErrorObject
                (Notions.failure_message url (Terms.parse_failure_text url)))
  /\ (forall envelope, settled <> JS.Return envelope)
  /\ (forall error : JS.thrown,
         Notions.transport_fails
           (Notions.meets this endpoint options'
              (List.length (Client.issued w'))) error ->
         settled'
         = JS.Throw (JS.ErrorObject
                       (Notions.failure_message url
                          (JS.message_or_string error)))
         /\ (settled' = settled
             <-> JS.message_or_string error = Terms.parse_failure_text url)
         /\ (Terms.worded_by_the_transport url error -> settled' <> settled)).
Proof.
  intros url settled settled' (response & parseError & Hout & Hjson).
  assert (Hs : settled
               = JS.Throw (JS.ErrorObject
                             (Notions.failure_message url
                                (Terms.parse_failure_text url)))).
  { subst settled. rewrite get_result. unfold Notions.settles_to.
    rewrite Hout, Hjson. reflexivity. }
  split; [exact Hs |]. split; [rewrite Hs; discriminate |].
  intros error Hfail.
  assert (Hs' : settled'
                = JS.Throw (JS.ErrorObject
                              (Notions.failure_message url
                                 (JS.message_or_string error)))).
  { subst settled'. rewrite get_result. unfold Notions.settles_to.
    unfold Notions.transport_fails in Hfail. rewrite Hfail. reflexivity. }
  assert (Hiff : settled' = settled
                 <-> JS.message_or_string error
                     = Terms.parse_failure_text url).
  { rewrite Hs, Hs'. split.
    - intro H. apply (@failure_message_inj url). congruence.
    - intros ->. reflexivity. }
  split; [exact Hs' |]. split; [exact Hiff |].
  intros Hworded Heq. apply Hworded. apply Hiff. exact Heq.
Qed.

Lemma get_parse_failure_is_distinct_witness :
  Client.result
    (fst (Client.get (Samples.client_of Terms.html_then_refused)
            Samples.comments Client.no_options Client.fresh))
  = JS.Throw
      (JS.ErrorObject
         (JS.js ("API request to http://localhost:3000/posts/1/comments"
                 ++ " failed: Invalid JSON response from "
                 ++ "http://localhost:3000/posts/1/comments")))
  /\ Client.result
       (fst (Client.get (Samples.client_of Terms.html_then_refused)
               Samples.comments Client.no_options Terms.after_one_request))
     = JS.Throw
         (JS.ErrorObject
            (JS.js ("API request to http://localhost:3000/posts/1/comments"
                    ++ " failed: connect ECONNREFUSED 127.0.0.1:3000")))
  /\ Client.result
       (fst (Client.get (Samples.client_of Terms.html_then_refused)
               Samples.comments Client.no_options Terms.after_one_request))
     <> Client.result
          (fst (Client.get (Samples.client_of Terms.html_then_refused)
                  Samples.comments Client.no_options Client.fresh)).
Proof.
  destruct (@get_parse_failure_is_distinct
              (Samples.client_of Terms.html_then_refused)
              Samples.comments Client.no_options Client.fresh
              Client.no_options Terms.after_one_request)
    as (Hparse & _ & Hfail).
  - exists Samples.html_response. eexists. split; reflexivity.
  - destruct (Hfail Samples.connection_refused eq_refl)
      as (Hrefused & _ & Hdistinct).
    split; [exact Hparse |]. split; [exact Hrefused |].
    apply Hdistinct. vm_compute. discriminate.
Defined.

(** A status that differs from [expectedStatus] changes what the console
    is told, not the envelope. *)
Example get_reports_status_mismatch :
  Client.console
    (snd (Client.get (Samples.client_of (Samples.answering Samples.ok_response))
            Samples.comments
            (Notions.with_expectedStatus (Some (JS.of_Z 404)) Client.no_options)
            Client.fresh))
  <> Client.console
       (snd (Client.get
               (Samples.client_of (Samples.answering Samples.ok_response))
               Samples.comments Client.no_options Client.fresh)).
Proof. vm_compute. discriminate. Qed.

(** ** [healthCheck] *)

Section HealthCheck.
Import JS Types Client Notions.

Lemma healthCheck_result (this : ApiClient) (w : world) :
  fst (healthCheck this w)
  = match settles_to (baseUrl this ++ js "/health")
            (meets this (js "/health") health_options
               (List.length (issued w))) with
    | Return envelope =>
        Return (num_strict_equals (status envelope) (of_Z 200))
    | Throw _ => Return false
    end.
Proof.
  rewrite <- get_result.
  unfold healthCheck, catch, bind, call, await, lift, ret, log.
  fold health_options.
  destruct (get this (js "/health") health_options w) as [pending w'].
  cbn [fst result]. destruct (result pending); reflexivity.
Qed.

Lemma healthCheck_issued (this : ApiClient) (w : world) :
  issued (snd (healthCheck this w))
  = issued w ++ [request_of this (js "/health") health_options].
Proof.
  rewrite <- get_issued.
  unfold healthCheck, catch, bind, call, await, lift, ret, log.
  fold health_options.
  destruct (get this (js "/health") health_options w) as [pending w'].
  cbn [snd]. destruct (result pending); reflexivity.
Qed.

End HealthCheck.

(** C9.  [healthCheck()] never throws.  It issues one GET to the base URL
    followed by [/health]; it returns true exactly when that exchange
    completes, its body parses and its status is 200; it returns false
    for any other status, and false when [get] throws, be it for a
    failure of the transport or for a body that does not parse. *)
Theorem healthCheck_never_raises (this : Client.ApiClient) (w : Client.world) :
  let exchange :=
    Notions.meets this (JS.js "/health") Notions.health_options
      (List.length (Client.issued w)) in
  let run := Client.healthCheck this w in
  (exists b : bool, fst run = JS.Return b)
  /\ (exists r : Playwright.request,
         Client.issued (snd run) = Client.issued w ++ [r]
         /\ Playwright.url r = Client.baseUrl this ++ JS.js "/health")
  /\ (forall response body,
         Notions.completes_with exchange response body ->
         fst run = JS.Return (Playwright.status response =? 200)%Z)
  /\ (fst run = JS.Return true <->
      exists response body,
        Notions.completes_with exchange response body
        /\ Playwright.status response = 200%Z)
  /\ (forall error : JS.thrown,
         Notions.transport_fails exchange error -> fst run = JS.Return false)
  /\ (Notions.body_unparsable exchange -> fst run = JS.Return false).
Proof.
  intros exchange run. subst run.
  rewrite healthCheck_result, healthCheck_issued. fold exchange.
  unfold Notions.settles_to, Notions.completes_with, Notions.transport_fails,
    Notions.body_unparsable.
  split; [| split; [| split; [| split; [| split]]]].
  - destruct (Playwright.outcome exchange) as [response | error]; [| eauto].
    destruct (Playwright.json response); eauto.
  - eexists. split; reflexivity.
  - intros response body [-> ->]. cbn [Types.status].
    rewrite strict_equals_of_Z. reflexivity.
  - split.
    + destruct (Playwright.outcome exchange) as [response | error];
        [| discriminate].
      destruct (Playwright.json response) as [body | parseError] eqn:Ej;
        [| discriminate].
      cbn [Types.status]. rewrite strict_equals_of_Z. intro H.
      injection H as H. apply Z.eqb_eq in H.
      exists response, body. auto.
    + intros (response & body & [-> ->] & Hs). cbn [Types.status].
      rewrite strict_equals_of_Z, Hs. reflexivity.
  - intros error ->. reflexivity.
  - intros (response & parseError & -> & ->). reflexivity.
Qed.

Lemma healthCheck_never_raises_witness :
  fst (Client.healthCheck
         (Samples.client_of (Samples.answering Samples.ok_response))
         Client.fresh) = JS.Return true
  /\ fst (Client.healthCheck
            (Samples.client_of (Samples.answering Samples.not_found_response))
            Client.fresh) = JS.Return false
  /\ fst (Client.healthCheck
            (Samples.client_of (Samples.refusing Samples.connection_refused))
            Client.fresh) = JS.Return false
  /\ fst (Client.healthCheck
            (Samples.client_of (Samples.answering Samples.html_response))
            Client.fresh) = JS.Return false.
Proof.
  split; [| split; [| split]].
  - apply (proj1 (proj2 (proj2 (healthCheck_never_raises
       (Samples.client_of (Samples.answering Samples.ok_response))
       Client.fresh)))
       Samples.ok_response (JS.VArr [])).
    split; reflexivity.
  - apply (proj1 (proj2 (proj2 (healthCheck_never_raises
       (Samples.client_of (Samples.answering Samples.not_found_response))
       Client.fresh)))
       Samples.not_found_response
       (JS.VObj [(JS.js "error", JS.VStr (JS.js "Not Found"))])).
    split; reflexivity.
  - apply (proj1 (proj2 (proj2 (proj2 (proj2 (healthCheck_never_raises
       (Samples.client_of (Samples.refusing Samples.connection_refused))
       Client.fresh)))))
       Samples.connection_refused).
    reflexivity.
  - apply (proj2 (proj2 (proj2 (proj2 (proj2 (healthCheck_never_raises
       (Samples.client_of (Samples.answering Samples.html_response))
       Client.fresh)))))).
    exists Samples.html_response. eexists. split; reflexivity.
Defined.

(** C10.  An envelope that [get] produces from a response with status [s]
    in [201, 300) has [data] defined and [error] undefined, and
    [validateApiResponse(envelope, s)] ends with an assertion failure
    although the status is the expected one: for an expected status other
    than 200 it requires [error] to be defined.  No expected status makes
    [validateApiResponse] return normally on such an envelope. *)
Theorem get_2xx_envelope_fails_validation
  (this : Client.ApiClient) (endpoint : JS.jsstring)
  (options : Client.get_options) (w : Client.world)
  (response : Playwright.APIResponse) (body : JS.value) :
  Notions.completes_with
    (Notions.meets this endpoint options (List.length (Client.issued w)))
    response body ->
  (201 <= Playwright.status response < 300)%Z ->
  exists envelope : Types.ApiResponse,
    Client.result (fst (Client.get this endpoint options w)) = JS.Return envelope
    /\ Types.data envelope = Some body
    /\ Types.error envelope = None
    /\ Validators.validateApiResponse envelope
         (Some (JS.of_Z (Playwright.status response)))
       = Validators.AssertionFailure Validators.ErrorToBeDefined
    /\ (forall expected : option JS.number,
           Validators.validateApiResponse envelope expected
           <> Validators.Passed).
Proof.
  intros [Hout Hjson] Hs.
  pose proof (get_result this endpoint options w) as Hget.
  unfold Notions.settles_to in Hget. rewrite Hout, Hjson in Hget.
  replace ((200 <=? Playwright.status response)
           && (Playwright.status response <? 300))%Z with true in Hget
    by (symmetry; apply andb_true_iff; split;
        [apply Z.leb_le | apply Z.ltb_lt]; lia).
  assert (Hne : (Playwright.status response =? 200)%Z = false)
    by (apply Z.eqb_neq; lia).
  eexists. split; [exact Hget |].
  split; [reflexivity |]. split; [reflexivity |].
  unfold Validators.validateApiResponse. cbn [Types.status Types.data
    Types.error Types.headers]. split.
  - rewrite same_value_of_Z, Z.eqb_refl, strict_equals_of_Z, Hne.
    reflexivity.
  - intros [expected |].
    + destruct (JS.num_same_value (JS.of_Z (Playwright.status response))
                  expected) eqn:Esame.
      * rewrite (same_value_then_strict _ _ Esame), Hne. discriminate.
      * discriminate.
    + rewrite same_value_of_Z, Hne. discriminate.
Qed.

Lemma get_2xx_envelope_fails_validation_witness :
  exists envelope : Types.ApiResponse,
    Client.result
      (fst (Client.get (Samples.client_of
                          (Samples.answering Samples.created_response))
              Samples.comments Client.no_options Client.fresh))
    = JS.Return envelope
    /\ Types.data envelope
       = Some (JS.VObj [(JS.js "id", JS.VNum (JS.of_Z 101))])
    /\ Types.error envelope = None
    /\ Validators.validateApiResponse envelope (Some (JS.of_Z 201))
       = Validators.AssertionFailure Validators.ErrorToBeDefined.
Proof.
  destruct (@get_2xx_envelope_fails_validation
              (Samples.client_of (Samples.answering Samples.created_response))
              Samples.comments Client.no_options Client.fresh
              Samples.created_response
              (JS.VObj [(JS.js "id", JS.VNum (JS.of_Z 101))]))
    as (envelope & Hget & Hdata & Herror & Hfail & _).
  - split; reflexivity.
  - simpl. lia.
  - exists envelope. repeat split; assumption.
Defined.

(** ** [concurrentRequests] *)

Section Concurrent.
Import JS Types Client Notions.

Lemma Promise_all_fulfilled (A : Type) (ps : list (promise A)) :
  forall vs : list A,
    List.map (@result A) ps = List.map Return vs ->
    earliest_rejection ps = None /\ fulfilled ps = vs.
Proof.
  induction ps as [| p ps IH]; intros [| v vs] E; try discriminate.
  - split; reflexivity.
  - simpl in E. injection E as Ep Eps. simpl. rewrite Ep.
    destruct (IH vs Eps) as [-> ->]. split; reflexivity.
Qed.

Lemma earliest_rejection_exists (A : Type) (ps : list (promise A)) :
  (exists p e, In p ps /\ result p = Throw e) ->
  exists t e, earliest_rejection ps = Some (t, e).
Proof.
  induction ps as [| p ps IH]; intros (q & e & Hin & Hq).
  - destruct Hin.
  - simpl. destruct (result p) as [a | e0] eqn:Ep.
    + destruct Hin as [<- | Hin]; [congruence |]. apply IH. eauto.
    + destruct (earliest_rejection ps) as [[t e'] |]; [| eauto].
      destruct (t <? settles_at p); eauto.
Qed.

Lemma all_returned (A B : Type) (f : A -> completion B) (l : list A) :
  (forall x, In x l -> exists b, f x = Return b) ->
  exists vs, List.map f l = List.map Return vs.
Proof.
  induction l as [| x l IH]; intro H.
  - exists []. reflexivity.
  - destruct (H x) as [b Hb]; [left; reflexivity |].
    destruct IH as [vs Hvs]; [intros y Hy; apply H; right; exact Hy |].
    exists (b :: vs). simpl. rewrite Hb, Hvs. reflexivity.
Qed.

Lemma nth_error_seq_lt (n : nat) : forall base i,
  i < n -> nth_error (seq base n) i = Some (base + i).
Proof.
  induction n as [| n IH]; intros base i Hi; [lia |].
  destruct i as [| i]; simpl.
  - rewrite Nat.add_0_r. reflexivity.
  - rewrite IH by lia. f_equal. lia.
Qed.

Lemma earliest_rejection_member (A : Type) (ps : list (promise A)) :
  forall t e,
    earliest_rejection ps = Some (t, e) ->
    exists p, In p ps /\ result p = Throw e.
Proof.
  induction ps as [| p ps IH]; intros t e H; [discriminate |].
  simpl in H. destruct (result p) as [a | e0] eqn:Ep.
  - destruct (IH t e H) as (q & Hq & Hr). exists q. split; [right |]; auto.
  - destruct (earliest_rejection ps) as [[t' e'] |].
    + destruct (t' <? settles_at p).
      * injection H as <- <-.
        destruct (IH t' e' eq_refl) as (q & Hq & Hr).
        exists q. split; [right |]; auto.
      * injection H as <- <-. exists p. split; [left; reflexivity | exact Ep].
    + injection H as <- <-. exists p. split; [left; reflexivity | exact Ep].
Qed.

Variable this : ApiClient.
Variable endpoint : jsstring.

Local Abbreviation settled := (batch_settles_to this endpoint).

Lemma initiate_request (l : line) (w : world) :
  exists (p : promise ApiResponse) (w' : world),
    bind (log l) (fun _ => call (get this endpoint no_options)) w
    = (Return p, w')
    /\ result p = settled (List.length (issued w))
    /\ issued w' = issued w ++ [request_of this endpoint no_options].
Proof.
  unfold bind, log, call.
  set (w1 := {| issued := issued w; console := console w ++ [l] |}).
  pose proof (get_result this endpoint no_options w1) as Hres.
  pose proof (get_issued this endpoint no_options w1) as Hiss.
  destruct (get this endpoint no_options w1) as [p w2].
  exists p, w2. repeat split; assumption.
Qed.

Lemma Array_from_get (concurrency n : nat) :
  forall (index : nat) (w : world),
  exists (ps : list (promise ApiResponse)) (w' : world),
    Array_from n index
      (fun index =>
         bind (log (LoadTestInitiating (index + 1) concurrency))
              (fun _ => call (get this endpoint no_options))) w
    = (Return ps, w')
    /\ List.map (@result ApiResponse) ps
       = List.map settled (seq (List.length (issued w)) n)
    /\ issued w'
       = issued w ++ repeat (request_of this endpoint no_options) n.
Proof.
  induction n as [| n IH]; intros index w.
  - exists [], w. cbn. rewrite app_nil_r. repeat split.
  - cbn [Array_from]. unfold bind at 1.
    destruct (initiate_request
                (LoadTestInitiating (index + 1) concurrency) w)
      as (p & w2 & -> & Hres & Hiss).
    unfold bind at 1.
    destruct (IH (S index) w2) as (ps & w3 & -> & Hmap & Hw).
    exists (p :: ps), w3. split; [reflexivity |]. split.
    + cbn [List.map seq]. rewrite Hres, Hmap, Hiss.
      rewrite length_app, Nat.add_1_r. reflexivity.
    + rewrite Hw, Hiss, <- app_assoc. reflexivity.
Qed.

Lemma concurrentRequests_run (n : nat) (w : world) :
  exists (ps : list (promise ApiResponse)) (w' : world),
    concurrentRequests this endpoint (Some n) w = (Promise_all ps, w')
    /\ List.map (@result ApiResponse) ps
       = List.map settled (seq (List.length (issued w)) n)
    /\ issued w'
       = issued w ++ repeat (request_of this endpoint no_options) n.
Proof.
  unfold concurrentRequests.
  unfold bind at 1. unfold log at 1. cbn iota beta.
  set (w1 := {| issued := issued w;
                console := console w ++ [LoadTestStart n endpoint] |}).
  destruct (Array_from_get n n 0 w1) as (ps & w2 & E & Hmap & Hw).
  change (issued w1) with (issued w) in *.
  unfold bind at 1. rewrite E. cbn iota beta.
  unfold catch, bind, lift, log, ret, throw.
  destruct (Promise_all ps) as [responses | error] eqn:EP; eexists ps, _;
    rewrite EP; (split; [reflexivity | split; [exact Hmap | exact Hw]]).
Qed.

End Concurrent.

(** C8.  [concurrentRequests(endpoint, n)] issues exactly [n] GET
    requests, all to the base URL followed by the endpoint.  When every
    one of them completes with a body that parses, it returns [n]
    envelopes, the [i]-th being the envelope of the [i]-th response: its
    status and headers, and its body in [data] or in [error] by the
    status; all are of status 200 if every response has status 200.  When
    any one of them fails, in the transport or in parsing, the call
    throws the error of one of the failed requests: no list of envelopes
    is returned.  An omitted [n] stands for 10. *)
Theorem concurrentRequests_joins_all
  (this : Client.ApiClient) (endpoint : JS.jsstring) (n : nat)
  (w : Client.world) :
  let exchange := fun i : nat =>
    Notions.meets this endpoint Client.no_options
      (List.length (Client.issued w) + i) in
  let run := Client.concurrentRequests this endpoint (Some n) w in
  (Client.issued (snd run)
   = Client.issued w
     ++ repeat (Notions.request_of this endpoint Client.no_options) n
   /\ Playwright.url (Notions.request_of this endpoint Client.no_options)
      = Client.baseUrl this ++ endpoint)
  /\ ((forall i, i < n ->
         exists response body,
           Notions.completes_with (exchange i) response body) ->
      exists envelopes : list Types.ApiResponse,
        fst run = JS.Return envelopes
        /\ List.length envelopes = n
        /\ (forall i response body,
               i < n ->
               Notions.completes_with (exchange i) response body ->
               exists envelope : Types.ApiResponse,
                 nth_error envelopes i = Some envelope
                 /\ Types.status envelope
                    = JS.of_Z (Playwright.status response)
                 /\ Types.headers envelope
                    = Some (JS.fromEntries (Playwright.headersArray response))
                 /\ (Notions.in_2xx (Playwright.status response) ->
                     Types.data envelope = Some body
                     /\ Types.error envelope = None)
                 /\ (~ Notions.in_2xx (Playwright.status response) ->
                     Types.data envelope = None
                     /\ Types.error envelope = Some body))
        /\ ((forall i response,
                i < n ->
                Playwright.outcome (exchange i) = JS.Return response ->
                Playwright.status response = 200%Z) ->
            Forall (fun e => Types.status e = JS.of_Z 200) envelopes))
  /\ ((exists i,
         i < n
         /\ (Notions.body_unparsable (exchange i)
             \/ exists error, Notions.transport_fails (exchange i) error)) ->
      exists error : JS.thrown,
        fst run = JS.Throw error
        /\ (forall envelopes, fst run <> JS.Return envelopes)
        /\ exists j,
             j < n
             /\ ((exists cause : JS.thrown,
                     Notions.transport_fails (exchange j) cause
                     /\ error
                        = JS.ErrorObject
                            (Notions.failure_message
                               (Client.baseUrl this ++ endpoint)
                               (JS.message_or_string cause)))
                 \/ (Notions.body_unparsable (exchange j)
                     /\ error
                        = JS.ErrorObject
                            (Notions.failure_message
                               (Client.baseUrl this ++ endpoint)
                               (JS.js "Invalid JSON response from "
                                ++ Client.baseUrl this ++ endpoint)))))
  /\ Client.concurrentRequests this endpoint None w
     = Client.concurrentRequests this endpoint (Some 10) w.
Proof.
  intros exchange run. subst run.
  destruct (concurrentRequests_run this endpoint n w)
    as (ps & w' & -> & Hmap & Hw).
  cbn [fst snd].
  split; [split; [exact Hw | reflexivity] |].
  split; [| split; [| reflexivity]].
  - intro Hall.
    destruct (@all_returned _ _ (Notions.batch_settles_to this endpoint)
                (seq (List.length (Client.issued w)) n)) as [vs Hvs].
    { intros k Hk. apply in_seq in Hk.
      destruct (Hall (k - List.length (Client.issued w)))
        as (response & body & Hout & Hjson); [lia |].
      subst exchange. cbn beta in Hout.
      replace (List.length (Client.issued w)
               + (k - List.length (Client.issued w))) with k in Hout by lia.
      unfold Notions.batch_settles_to, Notions.settles_to.
      rewrite Hout, Hjson. eauto. }
    rewrite Hvs in Hmap.
    destruct (Promise_all_fulfilled ps vs Hmap) as [Hnone Hful].
    exists vs. unfold Client.Promise_all. rewrite Hnone, Hful.
    split; [reflexivity |]. split; [| split].
    + apply (f_equal (@List.length _)) in Hvs.
      rewrite !length_map, length_seq in Hvs. symmetry. exact Hvs.
    + intros i response body Hi [Hout Hjson].
      pose proof (f_equal (fun l => nth_error l i) Hvs) as Hn.
      cbn beta in Hn.
      rewrite !nth_error_map, nth_error_seq_lt in Hn by exact Hi.
      cbn [option_map] in Hn.
      unfold Notions.batch_settles_to, Notions.settles_to in Hn.
      subst exchange. cbn beta in Hout. rewrite Hout, Hjson in Hn.
      destruct (nth_error vs i) as [envelope |]; [| discriminate].
      cbn [option_map] in Hn. injection Hn as Hn.
      exists envelope. split; [reflexivity |]. subst envelope.
      cbn [Types.status Types.headers Types.data Types.error].
      split; [reflexivity |]. split; [reflexivity |].
      unfold Notions.in_2xx.
      destruct ((200 <=? Playwright.status response)
                && (Playwright.status response <? 300))%Z eqn:E.
      * split; [intros _; split; reflexivity |].
        apply andb_true_iff in E as [E1 E2].
        apply Z.leb_le in E1. apply Z.ltb_lt in E2. intro H. lia.
      * split; [| intros _; split; reflexivity].
        intros [H1 H2]. apply Z.leb_le in H1. apply Z.ltb_lt in H2.
        rewrite H1, H2 in E. discriminate.
    + intro H200. apply Forall_forall. intros e He.
      assert (Hin : In (JS.Return e)
                      (List.map (Notions.batch_settles_to this endpoint)
                         (seq (List.length (Client.issued w)) n)))
        by (rewrite Hvs; apply in_map; exact He).
      apply in_map_iff in Hin as (k & Hk & Hseq). apply in_seq in Hseq.
      destruct (Hall (k - List.length (Client.issued w)))
        as (response & body & Hout & Hjson); [lia |].
      pose proof (H200 (k - List.length (Client.issued w)) response) as Hst.
      subst exchange. cbn beta in Hout, Hst.
      replace (List.length (Client.issued w)
               + (k - List.length (Client.issued w))) with k in Hout, Hst
        by lia.
      unfold Notions.batch_settles_to, Notions.settles_to in Hk.
      rewrite Hout, Hjson in Hk. injection Hk as <-. cbn [Types.status].
      rewrite Hst; [reflexivity | lia | exact Hout].
  - intros (i & Hi & Hfail).
    assert (Hthrow : exists e,
               Notions.batch_settles_to this endpoint
                 (List.length (Client.issued w) + i) = JS.Throw e).
    { unfold Notions.batch_settles_to, Notions.settles_to.
      subst exchange. cbn beta in Hfail.
      destruct Hfail as [(response & parseError & -> & ->) | [error ->]];
        eauto. }
    destruct Hthrow as [e He].
    assert (Hin : In (JS.Throw e) (List.map (@Client.result _) ps)).
    { rewrite Hmap, <- He. apply in_map. apply in_seq. lia. }
    apply in_map_iff in Hin as (p & Hp & Hps).
    destruct (@earliest_rejection_exists _ ps) as (t & e' & Hearly);
      [eauto |].
    exists e'. unfold Client.Promise_all. rewrite Hearly.
    split; [reflexivity |]. split; [discriminate |].
    destruct (earliest_rejection_member _ Hearly) as (q & Hq & Hr).
    assert (Hin : In (JS.Throw e') (List.map (@Client.result _) ps))
      by (rewrite <- Hr; apply in_map; exact Hq).
    rewrite Hmap in Hin. apply in_map_iff in Hin as (k & Hk & Hseq).
    apply in_seq in Hseq.
    exists (k - List.length (Client.issued w)). split; [lia |].
    subst exchange. cbn beta.
    replace (List.length (Client.issued w)
             + (k - List.length (Client.issued w))) with k by lia.
    unfold Notions.batch_settles_to, Notions.settles_to in Hk.
    unfold Notions.transport_fails, Notions.body_unparsable.
    destruct (Playwright.outcome
                (Notions.meets this endpoint Client.no_options k))
      as [response | cause] eqn:Eout.
    + destruct (Playwright.json response) as [body | parseError] eqn:Ejson;
        [discriminate |].
      right. injection Hk as <-. split; [| reflexivity].
      exists response, parseError. split; [reflexivity | exact Ejson].
    + left. injection Hk as <-. exists cause. split; reflexivity.
Qed.

Lemma concurrentRequests_joins_all_witness :
  (exists envelopes : list Types.ApiResponse,
      fst (Client.concurrentRequests
             (Samples.client_of (Samples.answering Samples.ok_response))
             Samples.comments (Some 10) Client.fresh)
      = JS.Return envelopes
      /\ List.length envelopes = 10
      /\ Forall (fun e => Types.status e = JS.of_Z 200) envelopes)
  /\ (exists envelopes : list Types.ApiResponse,
         fst (Client.concurrentRequests
                (Samples.client_of
                   (Terms.answering_in_turn Terms.found_except_second))
                Samples.comments (Some 3) Client.fresh)
         = JS.Return envelopes
         /\ exists envelope : Types.ApiResponse,
              nth_error envelopes 1 = Some envelope
              /\ Types.status envelope = JS.of_Z 404
              /\ Types.data envelope = None
              /\ Types.error envelope
                 = Some (JS.VObj [(JS.js "error",
                                   JS.VStr (JS.js "Not Found"))]))
  /\ (exists error : JS.thrown,
         fst (Client.concurrentRequests
                (Samples.client_of
                   (Samples.failing_at 7 Samples.connection_refused
                      Samples.ok_response))
                Samples.comments (Some 10) Client.fresh)
         = JS.Throw error).
Proof.
  split; [| split].
  - destruct (proj1 (proj2 (concurrentRequests_joins_all
                (Samples.client_of (Samples.answering Samples.ok_response))
                Samples.comments 10 Client.fresh)))
      as (envelopes & Hrun & Hlen & _ & H200).
    + intros i Hi. exists Samples.ok_response, (JS.VArr []).
      split; reflexivity.
    + exists envelopes. split; [exact Hrun |]. split; [exact Hlen |].
      apply H200. intros i response Hi Hout.
      injection Hout as <-. reflexivity.
  - destruct (proj1 (proj2 (concurrentRequests_joins_all
                (Samples.client_of
                   (Terms.answering_in_turn Terms.found_except_second))
                Samples.comments 3 Client.fresh)))
      as (envelopes & Hrun & _ & Heach & _).
    + intros i Hi.
      destruct i as [| [| i]]; eexists; eexists; split; reflexivity.
    + exists envelopes. split; [exact Hrun |].
      destruct (Heach 1 Samples.not_found_response
                  (JS.VObj [(JS.js "error", JS.VStr (JS.js "Not Found"))]))
        as (envelope & Hnth & Hstatus & _ & _ & Herr);
        [lia | split; reflexivity |].
      exists envelope. split; [exact Hnth |]. split; [exact Hstatus |].
      apply Herr. unfold Notions.in_2xx. simpl. lia.
  - destruct (proj1 (proj2 (proj2 (concurrentRequests_joins_all
                (Samples.client_of
                   (Samples.failing_at 7 Samples.connection_refused
                      Samples.ok_response))
                Samples.comments 10 Client.fresh))))
      as (error & Hrun & _).
    + exists 7. split; [lia |]. right.
      exists Samples.connection_refused. reflexivity.
    + exists error. exact Hrun.
Defined.

(* ===================================================================== *)
(** * Further properties *)
(* ===================================================================== *)

(** ** Objects: reading what was written *)

Section ObjectFacts.
Import JS.

Lemma str_eqb_eq (a : jsstring) : forall b, str_eqb a b = true <-> a = b.
Proof.
  induction a as [| x a IH]; intros [| y b]; simpl; split; intro H;
    try reflexivity; try discriminate.
  - apply andb_true_iff in H as [Hx Hab].
    apply N.eqb_eq in Hx. apply IH in Hab. congruence.
  - injection H as -> ->. rewrite N.eqb_refl. apply IH. reflexivity.
Qed.

Lemma str_eqb_refl (a : jsstring) : str_eqb a a = true.
Proof. apply str_eqb_eq. reflexivity. Qed.

Variable V : Type.

Lemma lookup_set_prop_same (k : jsstring) (v : V)
  (fields : list (jsstring * V)) :
  lookup k (set_prop k v fields) = Some v.
Proof.
  induction fields as [| [k' v'] fields IH]; simpl.
  - rewrite str_eqb_refl. reflexivity.
  - destruct (str_eqb k k') eqn:E; simpl.
    + rewrite str_eqb_refl. reflexivity.
    + rewrite E. exact IH.
Qed.

Lemma lookup_set_prop_other (k k' : jsstring) (v : V)
  (fields : list (jsstring * V)) :
  str_eqb k' k = false ->
  lookup k' (set_prop k v fields) = lookup k' fields.
Proof.
  intro Hne. induction fields as [| [j w] fields IH]; simpl.
  - rewrite Hne. reflexivity.
  - destruct (str_eqb k j) eqn:E; simpl.
    + apply str_eqb_eq in E. subst j. rewrite Hne. reflexivity.
    + destruct (str_eqb k' j); [reflexivity | exact IH].
Qed.

Lemma lookup_app (k : jsstring) (a b : list (jsstring * V)) :
  lookup k (a ++ b)
  = match lookup k a with Some v => Some v | None => lookup k b end.
Proof.
  induction a as [| [j w] a IH]; simpl; [reflexivity |].
  destruct (str_eqb k j); [reflexivity | exact IH].
Qed.

End ObjectFacts.

Section SpreadFacts.
Import JS Terms.

(** After [{...a, ...b}] a name reads as its last entry in [b], and as in
    [a] when [b] has none. *)
Lemma lookup_spread (k : jsstring) (b : list (jsstring * jsstring)) :
  forall a : list (jsstring * jsstring),
    lookup k (spread a b)
    = match last_named k b with
      | Some v => Some v
      | None => lookup k a
      end.
Proof.
  unfold spread, last_named.
  induction b as [| [j w] b IH]; intro a; simpl; [reflexivity |].
  rewrite IH, lookup_app. simpl.
  destruct (lookup k (rev b)) as [v |]; [reflexivity |].
  destruct (str_eqb k j) eqn:E.
  - apply str_eqb_eq in E. subst j. apply lookup_set_prop_same.
  - apply lookup_set_prop_other. exact E.
Qed.

Lemma lookup_map_VStr (k : jsstring) (l : list (jsstring * jsstring)) :
  lookup k (List.map (fun e => (fst e, VStr (snd e))) l)
  = option_map VStr (lookup k l).
Proof.
  induction l as [| [j w] l IH]; simpl; [reflexivity |].
  destruct (str_eqb k j); [reflexivity | exact IH].
Qed.

End SpreadFacts.

(** X1.  Every call of [get] issues exactly one request, whatever becomes
    of it: to the base URL followed by the endpoint, with the caller's
    timeout or 10000, and with headers in which every name reads as the
    caller gave it (the last entry, should a name repeat) and [Accept]
    reads [application/json] when the caller gave none. *)
Theorem get_issues_one_request
  (this : Client.ApiClient) (endpoint : JS.jsstring)
  (options : Client.get_options) (w : Client.world) :
  exists r : Playwright.request,
    Client.issued (snd (Client.get this endpoint options w))
    = Client.issued w ++ [r]
    /\ Playwright.url r = Client.baseUrl this ++ endpoint
    /\ Playwright.timeout (Playwright.options r)
       = match Client.timeout options with
         | Some t => t
         | None => JS.of_Z 10000
         end
    /\ (forall name : JS.jsstring,
           JS.lookup name (Playwright.headers (Playwright.options r))
           = match Client.headers options with
             | Some given =>
                 match Terms.last_named name given with
                 | Some v => Some v
                 | None =>
                     if JS.str_eqb name (JS.js "Accept")
                     then Some (JS.js "application/json") else None
                 end
             | None =>
                 if JS.str_eqb name (JS.js "Accept")
                 then Some (JS.js "application/json") else None
             end).
Proof.
  exists (Notions.request_of this endpoint options).
  split; [apply get_issued |]. split; [reflexivity |].
  split; [reflexivity |].
  intro name. unfold Notions.request_of. cbn [Playwright.options
    Playwright.headers]. rewrite lookup_spread.
  destruct (Client.headers options) as [given |].
  - destruct (Terms.last_named name given); reflexivity.
  - reflexivity.
Qed.

(** X2.  In the envelope [get] returns, a header name reads as the last
    header of that name in the response; names are compared as they are
    spelt. *)
Theorem get_envelope_headers
  (this : Client.ApiClient) (endpoint : JS.jsstring)
  (options : Client.get_options) (w : Client.world)
  (response : Playwright.APIResponse) (body : JS.value) :
  Notions.completes_with
    (Notions.meets this endpoint options (List.length (Client.issued w)))
    response body ->
  exists envelope : Types.ApiResponse,
    Client.result (fst (Client.get this endpoint options w)) = JS.Return envelope
    /\ forall name : JS.jsstring,
         Terms.header envelope name
         = Terms.last_named name (Playwright.headersArray response).
Proof.
  intros [Hout Hjson].
  pose proof (get_result this endpoint options w) as Hget.
  unfold Notions.settles_to in Hget. rewrite Hout, Hjson in Hget.
  eexists. split; [exact Hget |].
  intro name. unfold Terms.header, JS.fromEntries. cbn [Types.headers].
  rewrite lookup_map_VStr, lookup_spread. cbn [JS.lookup].
  destruct (Terms.last_named name (Playwright.headersArray response));
    reflexivity.
Qed.

Lemma get_envelope_headers_witness :
  exists envelope : Types.ApiResponse,
    Client.result
      (fst (Client.get
              (Samples.client_of
                 (Samples.answering Terms.two_cookies_response))
              Samples.comments Client.no_options Client.fresh))
    = JS.Return envelope
    /\ Terms.header envelope (JS.js "set-cookie") = Some (JS.js "b=2")
    /\ Terms.header envelope (JS.js "Set-Cookie") = None.
Proof.
  destruct (@get_envelope_headers
              (Samples.client_of
                 (Samples.answering Terms.two_cookies_response))
              Samples.comments Client.no_options Client.fresh
              Terms.two_cookies_response (JS.VArr []))
    as (envelope & Hget & Hheader).
  - split; reflexivity.
  - exists envelope. split; [exact Hget |].
    rewrite !Hheader. split; reflexivity.
Defined.

(** ** What an accepted e-mail address looks like *)

Section AcceptedAddresses.
Import JS RegExp Validators Terms.

Lemma plain_has_no_at (l : jsstring) :
  forallb not_space_or_at l = true ->
  occurrences at_sign l = 0
  /\ forallb (fun c => negb (is_whitespace c)) l = true.
Proof.
  unfold occurrences.
  induction l as [| c l IH]; cbn [forallb filter]; intro H;
    [split; reflexivity |].
  apply andb_true_iff in H as [Hc Hl]. destruct (IH Hl) as [Hocc Hws].
  unfold not_space_or_at, one_of in Hc.
  change (js "@") with [at_sign] in Hc. cbn [existsb] in Hc.
  rewrite orb_false_r in Hc. apply negb_true_iff in Hc.
  apply orb_false_iff in Hc as [Hspace Hat].
  rewrite Hspace, Hws, N.eqb_sym, Hat.
  split; [exact Hocc | reflexivity].
Qed.

Lemma occurrences_app (c : N) (a b : jsstring) :
  occurrences c (a ++ b) = occurrences c a + occurrences c b.
Proof. unfold occurrences. rewrite filter_app, length_app. reflexivity. Qed.

Lemma plain_run_length (l : jsstring) : plain_run l -> 1 <= List.length l.
Proof. intros [Hne _]. destruct l; [contradiction | simpl; lia]. Qed.

Lemma accepted_is_simple_pattern (s : jsstring) :
  validateEmailFormat s = true -> matches_simple_email_pattern s.
Proof.
  change (validateEmailFormat s) with (test emailRegex s).
  rewrite test_Lang. apply emailRegex_language.
Qed.

End AcceptedAddresses.

(** X3.  An address that [validateEmailFormat] accepts has exactly one
    ["@"], no white space anywhere, and at least five code units. *)
Theorem validateEmailFormat_accepted_shape (s : JS.jsstring) :
  Validators.validateEmailFormat s = true ->
  Terms.occurrences Terms.at_sign s = 1
  /\ forallb (fun c => negb (JS.is_whitespace c)) s = true
  /\ 5 <= List.length s.
Proof.
  intro H. apply accepted_is_simple_pattern in H.
  destruct H as (user & host & tld & -> & Hu & Hh & Ht).
  pose proof (plain_run_length Hu). pose proof (plain_run_length Hh).
  pose proof (plain_run_length Ht).
  destruct Hu as [_ Hu], Hh as [_ Hh], Ht as [_ Ht].
  apply plain_has_no_at in Hu as [Hu1 Hu2].
  apply plain_has_no_at in Hh as [Hh1 Hh2].
  apply plain_has_no_at in Ht as [Ht1 Ht2].
  rewrite !occurrences_app, !forallb_app, !length_app.
  rewrite Hu1, Hh1, Ht1, Hu2, Hh2, Ht2.
  split; [reflexivity |]. split; [reflexivity |]. simpl. lia.
Qed.

Lemma validateEmailFormat_accepted_shape_witness :
  Terms.occurrences Terms.at_sign (JS.js "Eliseo@gardner.biz") = 1
  /\ forallb (fun c => negb (JS.is_whitespace c))
       (JS.js "Eliseo@gardner.biz") = true
  /\ 5 <= List.length (JS.js "Eliseo@gardner.biz").
Proof.
  apply (@validateEmailFormat_accepted_shape (JS.js "Eliseo@gardner.biz")).
  vm_compute. reflexivity.
Defined.

(** ** [validateCommentObject], case by case *)

Section CommentObject.
Import JS RegExp Types Validators Terms.

Lemma accepted_without_whitespace (s : jsstring) :
  validateEmailFormat s = true ->
  s <> [] /\ forallb (fun c => negb (is_whitespace c)) s = true.
Proof.
  intro H. apply accepted_is_simple_pattern in H.
  destruct H as (user & host & tld & -> & [Hne Hu] & [_ Hh] & [_ Ht]).
  apply plain_has_no_at in Hu as [_ Hu].
  apply plain_has_no_at in Hh as [_ Hh].
  apply plain_has_no_at in Ht as [_ Ht].
  split.
  - destruct user; [contradiction | discriminate].
  - rewrite !forallb_app, Hu, Hh, Ht. reflexivity.
Qed.

Lemma trimStart_unchanged (s : jsstring) :
  forallb (fun c => negb (is_whitespace c)) s = true -> trimStart s = s.
Proof.
  destruct s as [| c s]; simpl; [reflexivity |].
  intro H. apply andb_true_iff in H as [Hc _].
  apply negb_true_iff in Hc. rewrite Hc. reflexivity.
Qed.

Lemma trim_unchanged (s : jsstring) :
  forallb (fun c => negb (is_whitespace c)) s = true -> trim s = s.
Proof.
  intro H. unfold trim, trimEnd.
  rewrite (trimStart_unchanged _ H), trimStart_unchanged.
  - apply rev_involutive.
  - apply forallb_forall. intros c Hc. apply in_rev in Hc.
    rewrite forallb_forall in H. apply H. exact Hc.
Qed.

Lemma accepted_email_not_blank (s : jsstring) :
  validateEmailFormat s = true -> trim s <> [].
Proof.
  intro H. destruct (accepted_without_whitespace _ H) as [Hne Hws].
  rewrite (trim_unchanged _ Hws). exact Hne.
Qed.

(** The body of [validateCommentObject] once [comment.postId] can be
    read. *)
Lemma validateCommentObject_on_object (fields : list (jsstring * value)) :
  let comment := Some (VObj fields) in
  validateCommentObject comment
  = if negb (truthy (field comment "postId"))
       || negb (truthy (field comment "id"))
       || negb (truthy (field comment "name"))
       || negb (truthy (field comment "email"))
       || negb (truthy (field comment "body"))
    then Return false
    else if negb (has comment "postId" TNumber)
         || negb (has comment "id" TNumber)
         || negb (has comment "name" TString)
         || negb (has comment "email" TString)
         || negb (has comment "body" TString)
    then Return false
    else if negb (validateEmailFormat (string_of (field comment "email")))
    then Return false
    else if (List.length (trim (string_of (field comment "name"))) =? 0)%nat
         || (List.length (trim (string_of (field comment "email"))) =? 0)%nat
         || (List.length (trim (string_of (field comment "body"))) =? 0)%nat
    then Return false
    else Return true.
Proof. reflexivity. Qed.

Lemma not_blank (s : jsstring) :
  (List.length (trim s) =? 0)%nat = false -> trim s <> [].
Proof. destruct (trim s); [discriminate | discriminate]. Qed.

Lemma validateCommentObject_true_parts (comment : unknown) :
  validateCommentObject comment = Return true ->
  isComment comment = true
  /\ truthy (field comment "id") = true
  /\ truthy (field comment "postId") = true
  /\ validateEmailFormat (string_of (field comment "email")) = true
  /\ trim (string_of (field comment "name")) <> []
  /\ trim (string_of (field comment "body")) <> [].
Proof.
  destruct comment as [[| b | n | s | items | fields] |];
    try (simpl; discriminate).
  rewrite validateCommentObject_on_object. cbn zeta.
  set (comment := Some (VObj fields)).
  destruct (negb (truthy (field comment "postId"))
            || negb (truthy (field comment "id"))
            || negb (truthy (field comment "name"))
            || negb (truthy (field comment "email"))
            || negb (truthy (field comment "body"))) eqn:E1;
    [discriminate |].
  destruct (negb (has comment "postId" TNumber)
            || negb (has comment "id" TNumber)
            || negb (has comment "name" TString)
            || negb (has comment "email" TString)
            || negb (has comment "body" TString)) eqn:E2; [discriminate |].
  destruct (negb (validateEmailFormat (string_of (field comment "email"))))
    eqn:E3; [discriminate |].
  destruct ((List.length (trim (string_of (field comment "name"))) =? 0)%nat
            || (List.length (trim (string_of (field comment "email"))) =? 0)%nat
            || (List.length (trim (string_of (field comment "body"))) =? 0)%nat)
    eqn:E4; [discriminate |].
  intros _.
  repeat (apply orb_false_iff in E1 as [E1 ?]).
  repeat (apply orb_false_iff in E2 as [E2 ?]).
  repeat (apply orb_false_iff in E4 as [E4 ?]).
  repeat match goal with
         | H : negb _ = false |- _ => apply negb_false_iff in H
         end.
  unfold isComment.
  repeat match goal with
         | H : has _ _ _ = true |- _ => rewrite H; clear H
         end.
  repeat split; try assumption; apply not_blank; assumption.
Qed.

End CommentObject.

(** X4.  [validateCommentObject] throws exactly on [null] and
    [undefined], a [TypeError] for the read of [postId]; on every other
    value it returns a boolean. *)
Theorem validateCommentObject_throws_on_nullish (comment : JS.unknown) :
  (comment = None ->
   Validators.validateCommentObject comment
   = JS.Throw (Validators.cannot_read "undefined" "postId"))
  /\ (comment = Some JS.VNull ->
      Validators.validateCommentObject comment
      = JS.Throw (Validators.cannot_read "null" "postId"))
  /\ (comment <> None -> comment <> Some JS.VNull ->
      exists b : bool, Validators.validateCommentObject comment = JS.Return b).
Proof.
  split; [intros ->; reflexivity |].
  split; [intros ->; reflexivity |].
  intros Hu Hn.
  assert (Hchain : forall c, c <> None -> c <> Some JS.VNull ->
    Validators.validateCommentObject c =
    (if negb (JS.truthy (Types.field c "postId"))
        || negb (JS.truthy (Types.field c "id"))
        || negb (JS.truthy (Types.field c "name"))
        || negb (JS.truthy (Types.field c "email"))
        || negb (JS.truthy (Types.field c "body"))
     then JS.Return false
     else if negb (Types.has c "postId" JS.TNumber)
          || negb (Types.has c "id" JS.TNumber)
          || negb (Types.has c "name" JS.TString)
          || negb (Types.has c "email" JS.TString)
          || negb (Types.has c "body" JS.TString)
     then JS.Return false
     else if negb (Validators.validateEmailFormat
                     (Types.string_of (Types.field c "email")))
     then JS.Return false
     else if (List.length
                (JS.trim (Types.string_of (Types.field c "name"))) =? 0)%nat
          || (List.length
                (JS.trim (Types.string_of (Types.field c "email"))) =? 0)%nat
          || (List.length
                (JS.trim (Types.string_of (Types.field c "body"))) =? 0)%nat
     then JS.Return false
     else JS.Return true)).
  { intros [[| | | | |] |] H1 H2; try reflexivity; contradiction. }
  rewrite (Hchain comment Hu Hn).
  repeat match goal with
         | |- context [if ?c then _ else _] => destruct c
         end; eauto.
Qed.

Lemma validateCommentObject_throws_on_nullish_witness :
  Validators.validateCommentObject (Some JS.VNull)
  = JS.Throw (Validators.cannot_read "null" "postId")
  /\ exists b : bool,
       Validators.validateCommentObject (Some (JS.VNum (JS.of_Z 7)))
       = JS.Return b.
Proof.
  split.
  - apply (proj1 (proj2 (validateCommentObject_throws_on_nullish
                           (Some JS.VNull)))).
    reflexivity.
  - apply (proj2 (proj2 (validateCommentObject_throws_on_nullish
                           (Some (JS.VNum (JS.of_Z 7)))))); discriminate.
Defined.

(** X5.  [validateCommentObject] returns true exactly for the values that
    [isComment] accepts and whose [id] and [postId] are not falsy (not 0,
    not [NaN]), whose [email] has the accepted form and whose [name] and
    [body] are not blank. *)
Theorem validateCommentObject_true_iff (comment : JS.unknown) :
  Validators.validateCommentObject comment = JS.Return true
  <->
  Types.isComment comment = true
  /\ JS.truthy (Types.field comment "id") = true
  /\ JS.truthy (Types.field comment "postId") = true
  /\ Validators.validateEmailFormat
       (Types.string_of (Types.field comment "email")) = true
  /\ JS.trim (Types.string_of (Types.field comment "name")) <> []
  /\ JS.trim (Types.string_of (Types.field comment "body")) <> [].
Proof.
  split.
  - apply validateCommentObject_true_parts.
  - intros (G & Hid & Hpost & Hmail & Hname & Hbody).
    apply validateCommentObject_accepts; try assumption.
    apply accepted_email_not_blank. exact Hmail.
Qed.

Lemma validateCommentObject_true_iff_witness :
  Validators.validateCommentObject (Some (Terms.comment 1 1)) = JS.Return true.
Proof.
  apply (proj2 (validateCommentObject_true_iff (Some (Terms.comment 1 1)))).
  repeat split; try (vm_compute; reflexivity); vm_compute; discriminate.
Defined.

(** ** The guard-based validators *)

Section GuardedValidators.
Import JS Types Validators Terms.

Lemma field_with_property_same (k : string) (v : value)
  (fields : list (jsstring * value)) :
  field (with_property k v (Some (VObj fields))) k = Some v.
Proof. simpl. apply lookup_set_prop_same. Qed.

Lemma field_with_property_other (k k' : string) (v : value) (obj : unknown) :
  str_eqb (js k') (js k) = false ->
  field (with_property k v obj) k' = field obj k'.
Proof.
  intro H. destruct obj as [[| | | | | fields] |]; try reflexivity.
  simpl. apply lookup_set_prop_other. exact H.
Qed.

Lemma has_with_property_other (k k' : string) (v : value) (obj : unknown)
  (t : jstype) :
  str_eqb (js k') (js k) = false ->
  has (with_property k v obj) k' t = has obj k' t.
Proof. intro H. unfold has. rewrite field_with_property_other; auto. Qed.

Lemma is_object_with_property (k : string) (v : value) (obj : unknown) :
  is_object_not_null (with_property k v obj) = is_object_not_null obj.
Proof. destruct obj as [[| | | | |] |]; reflexivity. Qed.

Lemma guarded_is_object (obj : unknown) :
  is_object_not_null obj = true ->
  (exists fields, obj = Some (VObj fields)) \/ (exists items, obj = Some (VArr items)).
Proof.
  destruct obj as [[| | | | items | fields] |]; try discriminate; eauto.
Qed.

Lemma guarded_with_title (obj : unknown) :
  is_object_not_null obj = true -> has obj "title" TString = true ->
  exists fields, obj = Some (VObj fields).
Proof.
  intros H T. destruct (guarded_is_object _ H) as [? | [items ->]]; auto.
  discriminate.
Qed.

End GuardedValidators.

(** X6.  [validatePhoto] never looks at the title: on a value that
    [isPhoto] accepts, any other title string, blank ones included, gives
    the same result.  [validateAlbum], [validateTodo] and [validatePost]
    return false on every value whose title is blank. *)
Theorem validatePhoto_never_checks_title
  (URL_protocol : JS.jsstring -> option JS.jsstring)
  (photo : JS.unknown) (expected : option JS.number) (title : JS.jsstring) :
  (Types.isPhoto photo = true ->
   Validators.validatePhoto URL_protocol
     (Terms.with_property "title" (JS.VStr title) photo) expected
   = Validators.validatePhoto URL_protocol photo expected)
  /\ (forall obj : JS.unknown,
         JS.trim title = [] ->
         Validators.validateAlbum
           (Terms.with_property "title" (JS.VStr title) obj) expected = false
         /\ Validators.validateTodo
              (Terms.with_property "title" (JS.VStr title) obj) expected
            = false
         /\ Validators.validatePost
              (Terms.with_property "title" (JS.VStr title) obj) expected
            = false).
Proof.
  split.
  - intro G. pose proof G as G'. unfold Types.isPhoto in G'.
    do 5 (apply andb_true_iff in G' as [G' ?]).
    destruct (guarded_with_title _ G') as [fields ->]; [assumption |].
    assert (HG : Types.isPhoto
                   (Terms.with_property "title" (JS.VStr title)
                      (Some (JS.VObj fields))) = true).
    { unfold Types.isPhoto.
      rewrite is_object_with_property, G'.
      rewrite (@has_with_property_other "title" "id" _ _ _ eq_refl).
      rewrite (@has_with_property_other "title" "albumId" _ _ _ eq_refl).
      rewrite (@has_with_property_other "title" "url" _ _ _ eq_refl).
      rewrite (@has_with_property_other "title" "thumbnailUrl" _ _ _ eq_refl).
      unfold Types.has at 3. rewrite field_with_property_same.
      repeat match goal with
             | Hh : Types.has _ _ _ = true |- _ => rewrite Hh; clear Hh
             end.
      reflexivity. }
    unfold Validators.validatePhoto. rewrite HG, G.
    rewrite (@field_with_property_other "title" "url" _ _ eq_refl).
    rewrite (@field_with_property_other "title" "thumbnailUrl" _ _ eq_refl).
    rewrite (@field_with_property_other "title" "albumId" _ _ eq_refl).
    reflexivity.
  - intros obj Hblank.
    assert (Hempty : Validators.empty_text title = true).
    { unfold Validators.empty_text. rewrite Hblank. apply orb_true_r. }
    destruct obj as [[| b | n | s | items | fields] |];
      try (repeat split; reflexivity).
    unfold Validators.validateAlbum, Validators.validateTodo,
      Validators.validatePost.
    rewrite !field_with_property_same. cbn [Types.string_of].
    rewrite Hempty.
    repeat split;
      repeat match goal with
             | |- context [if ?c then _ else _] => destruct c
             end; reflexivity.
Qed.

Lemma validatePhoto_never_checks_title_witness :
  Validators.validatePhoto Terms.sample_protocol
    (Terms.with_property "title" (JS.VStr (JS.js "   "))
       (Some (Terms.photo 1 1 "accusamus beatae")))
    (Some (JS.of_Z 1))
  = Validators.validatePhoto Terms.sample_protocol
      (Some (Terms.photo 1 1 "accusamus beatae")) (Some (JS.of_Z 1))
  /\ Validators.validatePhoto Terms.sample_protocol
       (Some (Terms.photo 1 1 "accusamus beatae")) (Some (JS.of_Z 1)) = true.
Proof.
  split.
  - apply (proj1 (@validatePhoto_never_checks_title Terms.sample_protocol
                    (Some (Terms.photo 1 1 "accusamus beatae"))
                    (Some (JS.of_Z 1)) (JS.js "   "))).
    reflexivity.
  - vm_compute. reflexivity.
Defined.

Section ForeignKeys.
Import JS Validators.

Lemma mismatch_false_iff (expected actual : number) :
  mismatch (Some expected) actual = false
  <-> num_strict_equals actual expected = true.
Proof. simpl. apply negb_false_iff. Qed.

Lemma nothing_equals_NaN (actual : number) :
  num_strict_equals actual NaN = false.
Proof. destruct actual; reflexivity. Qed.

End ForeignKeys.

(** X7.  When an expected foreign key is passed, a guard-based validator
    returns true only for a value whose key is [===] to it.  An expected
    key of [NaN] is therefore never met: each of the four validators
    returns false, whatever the value. *)
Theorem expected_key_must_match
  (URL_protocol : JS.jsstring -> option JS.jsstring)
  (v : JS.unknown) (expected : JS.number) :
  (Validators.validatePhoto URL_protocol v (Some expected) = true ->
   JS.num_strict_equals (Types.number_of (Types.field v "albumId")) expected
   = true)
  /\ (Validators.validateAlbum v (Some expected) = true ->
      JS.num_strict_equals (Types.number_of (Types.field v "userId")) expected
      = true)
  /\ (Validators.validateTodo v (Some expected) = true ->
      JS.num_strict_equals (Types.number_of (Types.field v "userId")) expected
      = true)
  /\ (Validators.validatePost v (Some expected) = true ->
      JS.num_strict_equals (Types.number_of (Types.field v "userId")) expected
      = true)
  /\ Validators.validatePhoto URL_protocol v (Some JS.NaN) = false
  /\ Validators.validateAlbum v (Some JS.NaN) = false
  /\ Validators.validateTodo v (Some JS.NaN) = false
  /\ Validators.validatePost v (Some JS.NaN) = false.
Proof.
  unfold Validators.validatePhoto, Validators.validateAlbum,
    Validators.validateTodo, Validators.validatePost.
  split; [| split; [| split; [| split]]];
    try (intro H; apply (proj1 (@mismatch_false_iff _ _));
         repeat match type of H with
                | (if ?c then _ else _) = true =>
                    destruct c eqn:?; [discriminate |]
                end; reflexivity).
  cbn [Validators.mismatch]. rewrite !nothing_equals_NaN. cbn [negb].
  repeat split;
    repeat match goal with
           | |- context [if ?c then _ else _] => destruct c
           end; reflexivity.
Qed.

Lemma expected_key_must_match_witness :
  JS.num_strict_equals
    (Types.number_of (Types.field (Some (Terms.album 3 1 "quidem")) "userId"))
    (JS.of_Z 1) = true.
Proof.
  apply (proj1 (proj2 (@expected_key_must_match Terms.sample_protocol
                         (Some (Terms.album 3 1 "quidem")) (JS.of_Z 1)))).
  vm_compute. reflexivity.
Defined.

(** X8.  The guards cannot tell a post or a todo from an album: whatever
    [isPost] or [isTodo] accepts, [isAlbum] accepts, and whatever
    [validatePost] or [validateTodo] accepts, [validateAlbum] accepts with
    the same expected user. *)
Theorem posts_and_todos_pass_as_albums
  (v : JS.unknown) (expectedUserId : option JS.number) :
  (Types.isPost v = true -> Types.isAlbum v = true)
  /\ (Types.isTodo v = true -> Types.isAlbum v = true)
  /\ (Validators.validatePost v expectedUserId = true ->
      Validators.validateAlbum v expectedUserId = true)
  /\ (Validators.validateTodo v expectedUserId = true ->
      Validators.validateAlbum v expectedUserId = true).
Proof.
  assert (HP : Types.isPost v = true -> Types.isAlbum v = true).
  { unfold Types.isPost, Types.isAlbum. intro H.
    apply andb_true_iff in H as [H _]. exact H. }
  assert (HT : Types.isTodo v = true -> Types.isAlbum v = true).
  { unfold Types.isTodo, Types.isAlbum. intro H.
    apply andb_true_iff in H as [H _]. exact H. }
  split; [exact HP |]. split; [exact HT |]. split.
  - unfold Validators.validatePost, Validators.validateAlbum. intro H.
    destruct (Types.isPost v) eqn:G; [| discriminate].
    rewrite (HP eq_refl). simpl in H |- *.
    destruct (Validators.mismatch _ _); [discriminate |].
    destruct (Validators.empty_text _); [discriminate | reflexivity].
  - unfold Validators.validateTodo, Validators.validateAlbum. intro H.
    destruct (Types.isTodo v) eqn:G; [| discriminate].
    rewrite (HT eq_refl). simpl in H |- *.
    destruct (negb (Types.has v "completed" JS.TBoolean)); [discriminate |].
    destruct (Validators.mismatch _ _); [discriminate |].
    destruct (Validators.empty_text _); [discriminate | reflexivity].
Qed.

Lemma posts_and_todos_pass_as_albums_witness :
  Validators.validateAlbum
    (Terms.with_property "body" (JS.VStr (JS.js "quia et suscipit"))
       (Some (Terms.album 1 1 "sunt aut facere")))
    (Some (JS.of_Z 1)) = true.
Proof.
  apply (proj1 (proj2 (proj2 (posts_and_todos_pass_as_albums
           (Terms.with_property "body" (JS.VStr (JS.js "quia et suscipit"))
              (Some (Terms.album 1 1 "sunt aut facere")))
           (Some (JS.of_Z 1)))))).
  vm_compute. reflexivity.
Defined.

(** X9.  Only an object can pass: on [undefined], [null], a boolean, a
    number, a string or an array every shape guard returns false, every
    guard-based validator returns false, and [validateCommentObject] does
    not return true. *)
Theorem only_objects_pass
  (URL_protocol : JS.jsstring -> option JS.jsstring)
  (v : JS.unknown) (expected : option JS.number) :
  (forall fields, v <> Some (JS.VObj fields)) ->
  Types.isComment v = false /\ Types.isPhoto v = false
  /\ Types.isAlbum v = false /\ Types.isTodo v = false
  /\ Types.isPost v = false /\ Health.isHealthResponse v = false
  /\ Validators.validatePhoto URL_protocol v expected = false
  /\ Validators.validateAlbum v expected = false
  /\ Validators.validateTodo v expected = false
  /\ Validators.validatePost v expected = false
  /\ Validators.validateCommentObject v <> JS.Return true.
Proof.
  intro H.
  destruct v as [[| b | n | s | items | fields] |];
    try (exfalso; apply (H fields); reflexivity);
    repeat split; try reflexivity; discriminate.
Qed.

Lemma only_objects_pass_witness :
  Types.isAlbum (Some (JS.VArr [Terms.album 1 1 "quidem"])) = false
  /\ Validators.validateCommentObject (Some (JS.VStr (JS.js "comment")))
     <> JS.Return true.
Proof.
  destruct (@only_objects_pass Terms.sample_protocol
              (Some (JS.VArr [Terms.album 1 1 "quidem"])) None)
    as (_ & _ & HA & _); [discriminate |].
  destruct (@only_objects_pass Terms.sample_protocol
              (Some (JS.VStr (JS.js "comment"))) None)
    as (_ & _ & _ & _ & _ & _ & _ & _ & _ & _ & HC); [discriminate |].
  split; assumption.
Defined.

(** X10.  [isHealthResponse] accepts exactly the objects whose [status]
    is the string ["healthy"] or the string ["unhealthy"], spelt so, and
    whose [timestamp] is a string; other properties are not looked at. *)
Theorem isHealthResponse_iff (obj : JS.unknown) :
  Health.isHealthResponse obj = true
  <->
  exists (fields : list (JS.jsstring * JS.value)) (s t : JS.jsstring),
    obj = Some (JS.VObj fields)
    /\ JS.lookup (JS.js "status") fields = Some (JS.VStr s)
    /\ (s = JS.js "healthy" \/ s = JS.js "unhealthy")
    /\ JS.lookup (JS.js "timestamp") fields = Some (JS.VStr t).
Proof.
  unfold Health.isHealthResponse, Health.includes. split.
  - intro H. do 3 (apply andb_true_iff in H as [H ?]).
    destruct (guarded_is_object _ H) as [[fields ->] | [items ->]];
      [| discriminate].
    destruct (has_string _ _ H2) as [s Hs].
    destruct (has_string _ _ H0) as [t Ht].
    rewrite Hs in H1. cbn [Types.string_of existsb] in H1.
    exists fields, s, t. split; [reflexivity |]. split; [exact Hs |].
    split; [| exact Ht].
    rewrite orb_false_r in H1. apply orb_true_iff in H1 as [E | E];
      apply str_eqb_eq in E; auto.
  - intros (fields & s & t & -> & Hs & Hst & Ht).
    unfold Types.has, Types.field. cbn [JS.prop]. rewrite Hs, Ht.
    cbn [Types.string_of JS.typeof JS.jstype_eqb existsb].
    destruct Hst as [-> | ->]; reflexivity.
Qed.

(** ** Array validation, continued *)

Section ArraySuccess.
Import JS Types Validators Notions.

Variable validator : item_validator.
Variable validatorArgs : list unknown.

Lemma validate_items_true (n : nat) (items : list value) :
  forall i,
    fst (validate_items validator validatorArgs n i items) = true ->
    forall x, In x items -> accepts validator validatorArgs x = true.
Proof.
  induction items as [| item items IH]; intros i H x Hx; [destruct Hx |].
  simpl in H. unfold accepts.
  destruct (validator (Some item) validatorArgs) eqn:E; simpl in H;
    [| discriminate].
  destruct Hx as [<- | Hx]; [exact E |].
  apply (IH (S i)); [| exact Hx].
  destruct (validate_items validator validatorArgs n (S i) items).
  exact H.
Qed.

Lemma array_success (response : ApiResponse) :
  fst (validateArrayResponse response validator validatorArgs) = true ->
  exists items : list value,
    data response = Some (VArr items)
    /\ (forall x, In x items -> accepts validator validatorArgs x = true)
    /\ applied_indices
         (snd (validateArrayResponse response validator validatorArgs))
       = seq 0 (List.length items).
Proof.
  unfold validateArrayResponse.
  destruct (data response) as [[| b | n | s | items | fields] |];
    try (cbn [isArray negb]; rewrite ?orb_true_r; cbn; discriminate).
  cbn [truthy isArray negb orb].
  destruct items as [| item items].
  - intros _. exists []. repeat split. intros x [].
  - cbn [List.length Nat.eqb].
    pose proof (@validate_items_true (S (List.length items))
                  (item :: items) 0) as Htrue.
    pose proof (@validate_items_all_accepted validator validatorArgs
                  (S (List.length items)) (item :: items) 0) as Hall.
    destruct (validate_items validator validatorArgs
                (S (List.length items)) 0 (item :: items))
      as [result events].
    cbn [fst snd] in *. intro H. exists (item :: items).
    split; [reflexivity |]. split; [apply Htrue; exact H |].
    cbn [applied_indices]. apply Hall. apply Htrue. exact H.
Qed.

Lemma array_success_when_all_accepted (response : ApiResponse)
  (items : list value) :
  data response = Some (VArr items) ->
  (forall x, In x items -> accepts validator validatorArgs x = true) ->
  fst (validateArrayResponse response validator validatorArgs) = true.
Proof.
  intros Hd Hall. unfold validateArrayResponse. rewrite Hd.
  cbn [truthy isArray negb orb].
  destruct items as [| item items]; [reflexivity |].
  cbn [List.length Nat.eqb].
  pose proof (@validate_items_all_accepted validator validatorArgs
                (S (List.length items)) (item :: items) 0 Hall) as [H _].
  destruct (validate_items validator validatorArgs
              (S (List.length items)) 0 (item :: items)).
  exact H.
Qed.

End ArraySuccess.

(** X11.  [validateArrayResponse] returns true exactly when [data] is an
    array every element of which the item predicate accepts; it has then
    applied the predicate to each element once, in order. *)
Theorem validateArrayResponse_true_iff
  (response : Types.ApiResponse)
  (validator : Validators.item_validator) (validatorArgs : list JS.unknown) :
  let run := Validators.validateArrayResponse response validator validatorArgs in
  (fst run = true
   <-> exists items : list JS.value,
         Types.data response = Some (JS.VArr items)
         /\ forall x, In x items ->
                      Notions.accepts validator validatorArgs x = true)
  /\ (fst run = true ->
      exists items : list JS.value,
        Types.data response = Some (JS.VArr items)
        /\ Validators.applied_indices (snd run) = seq 0 (List.length items)).
Proof.
  cbn zeta. split; [split |].
  - intro H. destruct (array_success _ _ _ H) as (items & Hd & Hall & _).
    eauto.
  - intros (items & Hd & Hall).
    apply (array_success_when_all_accepted _ _ _ Hd Hall).
  - intro H. destruct (array_success _ _ _ H) as (items & Hd & _ & Happ).
    eauto.
Qed.

Lemma validateArrayResponse_true_iff_witness :
  exists items : list JS.value,
    Types.data (Samples.envelope_of_data
                  (Some (JS.VArr (Samples.numbers [4; 5]%Z))))
    = Some (JS.VArr items)
    /\ Validators.applied_indices
         (snd (Validators.validateArrayResponse
                 (Samples.envelope_of_data
                    (Some (JS.VArr (Samples.numbers [4; 5]%Z))))
                 Samples.is_truthy []))
       = seq 0 (List.length items).
Proof.
  apply (proj2 (validateArrayResponse_true_iff
                  (Samples.envelope_of_data
                     (Some (JS.VArr (Samples.numbers [4; 5]%Z))))
                  Samples.is_truthy [])).
  reflexivity.
Defined.

(** X12.  [validateArrayResponse(response, validateAlbum, userId)] returns
    true exactly when [data] is an array of values that [isAlbum]
    accepts, each with a [userId] [===] to the one passed and a title
    that is not blank. *)
Theorem validateArrayResponse_albums_of_user
  (response : Types.ApiResponse) (userId : JS.number) :
  fst (Validators.validateArrayResponse response
         (Callbacks.with_rest_arguments Validators.validateAlbum)
         [Some (JS.VNum userId)]) = true
  <-> exists items : list JS.value,
        Types.data response = Some (JS.VArr items)
        /\ forall x, In x items ->
             Types.isAlbum (Some x) = true
             /\ JS.num_strict_equals
                  (Types.number_of (Types.field (Some x) "userId")) userId
                = true
             /\ JS.trim (Types.string_of (Types.field (Some x) "title")) <> [].
Proof.
  assert (Hitem : forall x,
    Notions.accepts (Callbacks.with_rest_arguments Validators.validateAlbum)
      [Some (JS.VNum userId)] x = true
    <-> Types.isAlbum (Some x) = true
        /\ JS.num_strict_equals
             (Types.number_of (Types.field (Some x) "userId")) userId = true
        /\ JS.trim (Types.string_of (Types.field (Some x) "title")) <> []).
  { intro x. unfold Notions.accepts, Callbacks.with_rest_arguments,
      Callbacks.expected_argument, Callbacks.first_argument.
    split.
    - intro H. unfold Validators.validateAlbum in H.
      destruct (Types.isAlbum (Some x)); [| discriminate].
      cbn [negb] in H.
      destruct (Validators.mismatch _ _) eqn:Em; [discriminate |].
      destruct (Validators.empty_text _) eqn:Ee; [discriminate |].
      split; [reflexivity |]. split.
      + apply mismatch_false_iff. exact Em.
      + unfold Validators.empty_text in Ee.
        apply orb_false_iff in Ee as [_ Ee]. apply not_blank. exact Ee.
    - intros (G & K & T). apply validateAlbum_accepts; try assumption.
      apply mismatch_false_iff. exact K. }
  split.
  - intro H. destruct (array_success _ _ _ H) as (items & Hd & Hall & _).
    exists items. split; [exact Hd |].
    intros x Hx. apply Hitem. apply Hall. exact Hx.
  - intros (items & Hd & Hall).
    apply (array_success_when_all_accepted _ _ _ Hd).
    intros x Hx. apply Hitem. apply Hall. exact Hx.
Qed.

Lemma validateArrayResponse_albums_of_user_witness :
  fst (Validators.validateArrayResponse
         (Samples.envelope_of_data
            (Some (JS.VArr [Terms.album 1 1 "quidem molestiae enim";
                            Terms.album 2 1 "sunt qui excepturi"])))
         (Callbacks.with_rest_arguments Validators.validateAlbum)
         [Some (JS.VNum (JS.of_Z 1))]) = true.
Proof.
  apply (proj2 (validateArrayResponse_albums_of_user
                  (Samples.envelope_of_data
                     (Some (JS.VArr [Terms.album 1 1 "quidem molestiae enim";
                                     Terms.album 2 1 "sunt qui excepturi"])))
                  (JS.of_Z 1))).
  eexists. split; [reflexivity |].
  intros x [<- | [<- | []]];
    (split; [reflexivity | split; [reflexivity | vm_compute; discriminate]]).
Defined.

(** ** Validators called back *)

Section CalledBack.
Import JS Types Validators Callbacks.

(** Around a validator that does not throw, the loop and the method are
    the ones modelled before. *)
Lemma validate_items_throwing_agrees (validator : item_validator)
  (validatorArgs : list unknown) (n : nat) (items : list value) :
  forall i,
    validate_items_throwing (never_throwing validator) validatorArgs n i items
    = (Return (fst (validate_items validator validatorArgs n i items)),
       snd (validate_items validator validatorArgs n i items)).
Proof.
  induction items as [| item items IH]; intro i; simpl; [reflexivity |].
  unfold never_throwing at 1.
  destruct (validator (Some item) validatorArgs); simpl; [| reflexivity].
  rewrite IH.
  destruct (validate_items validator validatorArgs n (S i) items).
  reflexivity.
Qed.

Lemma validateArrayResponse_throwing_agrees (response : ApiResponse)
  (validator : item_validator) (validatorArgs : list unknown) :
  validateArrayResponse_throwing response (never_throwing validator)
    validatorArgs
  = (Return (fst (validateArrayResponse response validator validatorArgs)),
     snd (validateArrayResponse response validator validatorArgs)).
Proof.
  unfold validateArrayResponse_throwing, validateArrayResponse.
  destruct (negb (truthy (data response)) || negb (isArray (data response)));
    [reflexivity |].
  destruct (data response) as [[| | | | items |] |]; try reflexivity.
  destruct (List.length items =? 0)%nat; [reflexivity |].
  rewrite validate_items_throwing_agrees.
  destruct (validate_items validator validatorArgs (List.length items) 0 items).
  reflexivity.
Qed.

Variable validatorArgs : list unknown.

Lemma comments_until_null (n k : nat) :
  forall (items : list value) (i : nat),
    nth_error items k = Some VNull ->
    (forall j x, j < k -> nth_error items j = Some x ->
                 validateCommentObject (Some x) = Return true) ->
    let run :=
      validate_items_throwing validateCommentObject_callback validatorArgs
        n i items in
    fst run = Throw (cannot_read "null" "postId")
    /\ applied_indices (snd run) = seq i (S k).
Proof.
  induction k as [| k IH]; intros [| x items] i Hk Hbefore;
    try discriminate; simpl in Hk.
  - injection Hk as ->. split; reflexivity.
  - cbn zeta. cbn [validate_items_throwing].
    assert (E : validateCommentObject_callback (Some x) validatorArgs
                = Return true)
      by (apply (Hbefore 0 x); [lia | reflexivity]).
    rewrite E. cbn [negb].
    destruct (IH items (S i) Hk) as [Hr Ha].
    { intros j y Hj Hy. apply (Hbefore (S j) y); [lia | exact Hy]. }
    cbn zeta in Hr, Ha.
    destruct (validate_items_throwing validateCommentObject_callback
                validatorArgs n (S i) items) as [result events].
    cbn [fst snd applied_indices] in *. rewrite Ha. split; [exact Hr |].
    reflexivity.
Qed.

Lemma comments_without_null (n : nat) (items : list value) :
  forall i,
    (forall x, In x items -> x <> VNull) ->
    exists b,
      fst (validate_items_throwing validateCommentObject_callback
             validatorArgs n i items) = Return b.
Proof.
  induction items as [| x items IH]; intros i Hnn; [exists true; reflexivity |].
  cbn [validate_items_throwing].
  assert (Hx : exists b,
             validateCommentObject_callback (Some x) validatorArgs = Return b).
  { assert (x <> VNull) by (apply Hnn; left; reflexivity).
    unfold validateCommentObject_callback.
    destruct x; try contradiction; simpl;
      repeat match goal with
             | |- context [if ?c then _ else _] => destruct c
             end; eauto. }
  destruct Hx as [b ->]. destruct b; cbn [negb].
  - destruct (IH (S i)) as [b Hb];
      [intros y Hy; apply Hnn; right; exact Hy |].
    destruct (validate_items_throwing validateCommentObject_callback
                validatorArgs n (S i) items) as [result events].
    exists b. exact Hb.
  - exists false. reflexivity.
Qed.

End CalledBack.

(** X13.  [validateArrayResponse(response, validateCommentObject)], as
    the comments test calls it, throws when the array holds a [null]
    after comments that are all valid: the [TypeError] of the read of
    [postId] escapes, with the predicate applied at the indices up to the
    [null] only.  On an array without [null] it returns a boolean. *)
Theorem comments_validation_throws_on_null
  (response : Types.ApiResponse) (items : list JS.value)
  (validatorArgs : list JS.unknown) :
  Types.data response = Some (JS.VArr items) ->
  let run :=
    Callbacks.validateArrayResponse_throwing response
      Callbacks.validateCommentObject_callback validatorArgs in
  (forall k : nat,
      nth_error items k = Some JS.VNull ->
      (forall j x, j < k -> nth_error items j = Some x ->
                   Validators.validateCommentObject (Some x) = JS.Return true) ->
      fst run = JS.Throw (Validators.cannot_read "null" "postId")
      /\ Validators.applied_indices (snd run) = seq 0 (S k))
  /\ ((forall x, In x items -> x <> JS.VNull) ->
      exists b : bool, fst run = JS.Return b).
Proof.
  intros Hd run. subst run. unfold Callbacks.validateArrayResponse_throwing.
  rewrite Hd. cbn [JS.truthy JS.isArray negb orb]. split.
  - intros k Hk Hbefore.
    destruct items as [| x items]; [destruct k; discriminate |].
    cbn [List.length Nat.eqb].
    destruct (@comments_until_null validatorArgs (S (List.length items)) k
                (x :: items) 0 Hk Hbefore) as [Hr Ha].
    destruct (Callbacks.validate_items_throwing
                Callbacks.validateCommentObject_callback validatorArgs
                (S (List.length items)) 0 (x :: items)) as [result events].
    cbn [fst snd Validators.applied_indices] in *.
    split; assumption.
  - intro Hnn. destruct items as [| x items]; [exists true; reflexivity |].
    cbn [List.length Nat.eqb].
    destruct (@comments_without_null validatorArgs (S (List.length items))
                (x :: items) 0 Hnn) as [b Hb].
    destruct (Callbacks.validate_items_throwing
                Callbacks.validateCommentObject_callback validatorArgs
                (S (List.length items)) 0 (x :: items)) as [result events].
    exists b. exact Hb.
Qed.

Lemma comments_validation_throws_on_null_witness :
  fst (Callbacks.validateArrayResponse_throwing
         (Samples.envelope_of_data
            (Some (JS.VArr [Terms.comment 1 1; JS.VNull; Terms.comment 3 1])))
         Callbacks.validateCommentObject_callback [])
  = JS.Throw (Validators.cannot_read "null" "postId")
  /\ Validators.applied_indices
       (snd (Callbacks.validateArrayResponse_throwing
               (Samples.envelope_of_data
                  (Some (JS.VArr [Terms.comment 1 1; JS.VNull;
                                  Terms.comment 3 1])))
               Callbacks.validateCommentObject_callback []))
     = seq 0 2.
Proof.
  apply (proj1 (@comments_validation_throws_on_null
                  (Samples.envelope_of_data
                     (Some (JS.VArr [Terms.comment 1 1; JS.VNull;
                                     Terms.comment 3 1])))
                  _ [] eq_refl) 1).
  - reflexivity.
  - intros j x Hj Hx. destruct j as [| j]; [| lia].
    injection Hx as <-. vm_compute. reflexivity.
Defined.

(** X14.  [validateArrayResponse(response, validatePhoto, ...)] is
    decided by the first element of a non-empty array: the call returns
    false when [isPhoto] rejects it and throws otherwise, since
    [validatePhoto], called back without its class, reads
    [this.validateUrlFormat] of [undefined].  It never returns true on a
    non-empty array.  Called on the class, the method is the one
    modelled as [validatePhoto]. *)
Theorem photos_validation_never_succeeds
  (URL_protocol : JS.jsstring -> option JS.jsstring)
  (response : Types.ApiResponse) (item : JS.value) (rest : list JS.value)
  (validatorArgs : list JS.unknown) :
  Types.data response = Some (JS.VArr (item :: rest)) ->
  let run :=
    Callbacks.validateArrayResponse_throwing response
      Callbacks.validatePhoto_callback validatorArgs in
  fst run
  = (if Types.isPhoto (Some item)
     then JS.Throw (Validators.cannot_read "undefined" "validateUrlFormat")
     else JS.Return false)
  /\ fst run <> JS.Return true
  /\ Validators.applied_indices (snd run) = [0]
  /\ (forall photo expected,
         Callbacks.validatePhoto_on
           (Some (Validators.validateUrlFormat URL_protocol)) photo expected
         = JS.Return (Validators.validatePhoto URL_protocol photo expected)).
Proof.
  intros Hd run. subst run. unfold Callbacks.validateArrayResponse_throwing.
  rewrite Hd. cbn [JS.truthy JS.isArray negb orb List.length Nat.eqb].
  cbn [Callbacks.validate_items_throwing].
  assert (E : Callbacks.validatePhoto_callback (Some item) validatorArgs
              = if Types.isPhoto (Some item)
                then JS.Throw
                       (Validators.cannot_read "undefined" "validateUrlFormat")
                else JS.Return false).
  { unfold Callbacks.validatePhoto_callback, Callbacks.validatePhoto_on.
    destruct (Types.isPhoto (Some item)); reflexivity. }
  rewrite E.
  destruct (Types.isPhoto (Some item)); cbn [negb fst snd].
  - repeat split; try discriminate.
    intros photo expected.
    unfold Callbacks.validatePhoto_on, Validators.validatePhoto.
    repeat match goal with
           | |- context [if ?c then _ else _] => destruct c
           end; reflexivity.
  - repeat split; try discriminate.
    intros photo expected.
    unfold Callbacks.validatePhoto_on, Validators.validatePhoto.
    repeat match goal with
           | |- context [if ?c then _ else _] => destruct c
           end; reflexivity.
Qed.

Lemma photos_validation_never_succeeds_witness :
  fst (Callbacks.validateArrayResponse_throwing
         (Samples.envelope_of_data
            (Some (JS.VArr [Terms.photo 1 1 "accusamus beatae"])))
         Callbacks.validatePhoto_callback [Some (JS.VNum (JS.of_Z 1))])
  = JS.Throw (Validators.cannot_read "undefined" "validateUrlFormat").
Proof.
  apply (proj1 (@photos_validation_never_succeeds Terms.sample_protocol
                  (Samples.envelope_of_data
                     (Some (JS.VArr [Terms.photo 1 1 "accusamus beatae"])))
                  _ _ [Some (JS.VNum (JS.of_Z 1))] eq_refl)).
Defined.

(** ** The envelope of [get] under the validators *)

(** X15.  On the envelope [get] returns, [validateArrayResponse] returns
    true exactly when the status is in [200, 300) and the body is an
    array every element of which the predicate accepts: a response with
    an error status never validates, whatever its body. *)
Theorem get_then_validateArrayResponse
  (this : Client.ApiClient) (endpoint : JS.jsstring)
  (options : Client.get_options) (w : Client.world)
  (response : Playwright.APIResponse) (body : JS.value)
  (validator : Validators.item_validator) (validatorArgs : list JS.unknown) :
  Notions.completes_with
    (Notions.meets this endpoint options (List.length (Client.issued w)))
    response body ->
  exists envelope : Types.ApiResponse,
    Client.result (fst (Client.get this endpoint options w)) = JS.Return envelope
    /\ (fst (Validators.validateArrayResponse envelope validator validatorArgs)
        = true
        <-> Notions.in_2xx (Playwright.status response)
            /\ exists items : list JS.value,
                 body = JS.VArr items
                 /\ forall x, In x items ->
                      Notions.accepts validator validatorArgs x = true).
Proof.
  intros [Hout Hjson].
  pose proof (get_result this endpoint options w) as Hget.
  unfold Notions.settles_to in Hget. rewrite Hout, Hjson in Hget.
  eexists. split; [exact Hget |].
  unfold Notions.in_2xx.
  destruct ((200 <=? Playwright.status response)
            && (Playwright.status response <? 300))%Z eqn:E.
  - apply andb_true_iff in E as [E1 E2].
    apply Z.leb_le in E1. apply Z.ltb_lt in E2. split.
    + intro H. apply array_success in H as (items & Hd & Hall & _).
      cbn [Types.data] in Hd. injection Hd as ->. split; [lia | eauto].
    + intros (_ & items & -> & Hall).
      apply (@array_success_when_all_accepted _ _ _ items);
        [reflexivity | exact Hall].
  - split.
    + intro H. apply array_success in H as (items & Hd & _).
      cbn [Types.data] in Hd. discriminate.
    + intros ([H1 H2] & _). apply Z.leb_le in H1. apply Z.ltb_lt in H2.
      rewrite H1, H2 in E. discriminate.
Qed.

Lemma get_then_validateArrayResponse_witness :
  exists envelope : Types.ApiResponse,
    Client.result
      (fst (Client.get
              (Samples.client_of
                 (Samples.answering Terms.error_with_albums))
              Samples.comments Client.no_options Client.fresh))
    = JS.Return envelope
    /\ fst (Validators.validateArrayResponse envelope
              (Callbacks.with_rest_arguments Validators.validateAlbum) [])
       <> true.
Proof.
  destruct (@get_then_validateArrayResponse
              (Samples.client_of
                 (Samples.answering Terms.error_with_albums))
              Samples.comments Client.no_options Client.fresh
              Terms.error_with_albums (JS.VArr [Terms.album 1 1 "quidem"])
              (Callbacks.with_rest_arguments Validators.validateAlbum) [])
    as (envelope & Hget & Hiff).
  - split; reflexivity.
  - exists envelope. split; [exact Hget |].
    intro H. apply Hiff in H as [[_ H] _]. simpl in H. lia.
Defined.

(** X16.  On the envelope [get] returns, [validateApiResponse(envelope,
    expected)] returns normally exactly when the status is the expected
    one and the expected one is 200 or lies outside [200, 300). *)
Theorem get_then_validateApiResponse
  (this : Client.ApiClient) (endpoint : JS.jsstring)
  (options : Client.get_options) (w : Client.world)
  (response : Playwright.APIResponse) (body : JS.value) :
  Notions.completes_with
    (Notions.meets this endpoint options (List.length (Client.issued w)))
    response body ->
  exists envelope : Types.ApiResponse,
    Client.result (fst (Client.get this endpoint options w)) = JS.Return envelope
    /\ forall expected : Z,
         Validators.validateApiResponse envelope (Some (JS.of_Z expected))
         = Validators.Passed
         <-> Playwright.status response = expected
             /\ (expected = 200%Z \/ ~ Notions.in_2xx expected).
Proof.
  intros [Hout Hjson].
  pose proof (get_result this endpoint options w) as Hget.
  unfold Notions.settles_to in Hget. rewrite Hout, Hjson in Hget.
  eexists. split; [exact Hget |].
  intro expected. unfold Validators.validateApiResponse, Notions.in_2xx.
  cbn [Types.status Types.data Types.error Types.headers].
  rewrite same_value_of_Z, strict_equals_of_Z.
  destruct (Playwright.status response =? expected)%Z eqn:Es.
  - apply Z.eqb_eq in Es. rewrite Es.
    destruct (expected =? 200)%Z eqn:E200.
    + apply Z.eqb_eq in E200. rewrite E200. cbn. split; auto.
    + apply Z.eqb_neq in E200.
      destruct ((200 <=? expected) && (expected <? 300))%Z eqn:E2xx; cbn.
      * apply andb_true_iff in E2xx as [E1 E2].
        apply Z.leb_le in E1. apply Z.ltb_lt in E2.
        split; [discriminate |]. intros [_ [H | H]]; [contradiction | lia].
      * split; [| reflexivity]. intros _. split; [reflexivity |]. right.
        intros [H1 H2]. apply Z.leb_le in H1. apply Z.ltb_lt in H2.
        rewrite H1, H2 in E2xx. discriminate.
  - apply Z.eqb_neq in Es. cbn. split; [discriminate |].
    intros [H _]. contradiction.
Qed.

Lemma get_then_validateApiResponse_witness :
  exists envelope : Types.ApiResponse,
    Client.result
      (fst (Client.get
              (Samples.client_of
                 (Samples.answering Samples.not_found_response))
              Samples.comments Client.no_options Client.fresh))
    = JS.Return envelope
    /\ Validators.validateApiResponse envelope (Some (JS.of_Z 404))
       = Validators.Passed.
Proof.
  destruct (@get_then_validateApiResponse
              (Samples.client_of
                 (Samples.answering Samples.not_found_response))
              Samples.comments Client.no_options Client.fresh
              Samples.not_found_response
              (JS.VObj [(JS.js "error", JS.VStr (JS.js "Not Found"))]))
    as (envelope & Hget & Hiff).
  - split; reflexivity.
  - exists envelope. split; [exact Hget |].
    apply Hiff. split; [reflexivity |]. right.
    unfold Notions.in_2xx. lia.
Defined.

(** ** [concurrentRequests], continued *)

Section Joined.
Import JS Types Client Notions.

Lemma thrown_by_get_is_rethrown (url : jsstring) (x : Playwright.exchange)
  (error : thrown) :
  settles_to url x = Throw error -> Terms.rethrown_by_get url error.
Proof.
  unfold settles_to, Terms.rethrown_by_get.
  destruct (Playwright.outcome x) as [response | cause].
  - destruct (Playwright.json response); [discriminate |].
    intro H. injection H as <-. eauto.
  - intro H. injection H as <-. eauto.
Qed.

End Joined.

(** X17.  The envelopes [concurrentRequests] returns stand in the order
    in which the requests were issued, whenever each of them settles: the
    [i]-th envelope is what the [i]-th request of the batch settled to. *)
Theorem concurrentRequests_keeps_order
  (this : Client.ApiClient) (endpoint : JS.jsstring) (n : nat)
  (w : Client.world) (envelopes : list Types.ApiResponse) :
  fst (Client.concurrentRequests this endpoint (Some n) w)
  = JS.Return envelopes ->
  List.length envelopes = n
  /\ forall i, i < n ->
       exists envelope : Types.ApiResponse,
         nth_error envelopes i = Some envelope
         /\ Notions.batch_settles_to this endpoint
              (List.length (Client.issued w) + i)
            = JS.Return envelope.
Proof.
  destruct (concurrentRequests_run this endpoint n w)
    as (ps & w' & -> & Hmap & _).
  cbn [fst]. unfold Client.Promise_all.
  destruct (Client.earliest_rejection ps) as [[t e] |] eqn:Ee;
    [discriminate |].
  intro H. injection H as <-.
  assert (Hvs : List.map (@Client.result _) ps
                = List.map JS.Return (Client.fulfilled ps)).
  { clear Hmap. induction ps as [| p ps IH]; [reflexivity |].
    simpl in Ee |- *. destruct (Client.result p) as [a | e0] eqn:Ep.
    - simpl. rewrite IH by exact Ee. reflexivity.
    - destruct (Client.earliest_rejection ps) as [[t e] |];
        [destruct (t <? Client.settles_at p) |]; discriminate. }
  rewrite Hvs in Hmap. split.
  - apply (f_equal (@List.length _)) in Hmap.
    rewrite !length_map, length_seq in Hmap. exact Hmap.
  - intros i Hi.
    pose proof (f_equal (fun l => nth_error l i) Hmap) as Hi'.
    cbn beta in Hi'. rewrite !nth_error_map, nth_error_seq_lt in Hi' by lia.
    destruct (nth_error (Client.fulfilled ps) i) as [envelope |];
      [| discriminate].
    cbn [option_map] in Hi'. injection Hi' as Hi'.
    exists envelope. split; [reflexivity | symmetry; exact Hi'].
Qed.

Lemma concurrentRequests_keeps_order_witness :
  exists envelope : Types.ApiResponse,
    nth_error [Terms.ok_envelope; Terms.ok_envelope] 1 = Some envelope
    /\ Notions.batch_settles_to
         (Samples.client_of (Samples.answering Samples.ok_response))
         Samples.comments (List.length (Client.issued Client.fresh) + 1)
       = JS.Return envelope.
Proof.
  apply (proj2 (@concurrentRequests_keeps_order
                  (Samples.client_of (Samples.answering Samples.ok_response))
                  Samples.comments 2 Client.fresh
                  [Terms.ok_envelope; Terms.ok_envelope] eq_refl)).
  lia.
Defined.

(** X18.  What [concurrentRequests] throws is always the error of one of
    its own requests, as [get] threw it: an [Error] whose message is "API
    request to <url> failed: " followed by a cause. *)
Theorem concurrentRequests_throws_a_get_error
  (this : Client.ApiClient) (endpoint : JS.jsstring) (n : nat)
  (w : Client.world) (error : JS.thrown) :
  fst (Client.concurrentRequests this endpoint (Some n) w) = JS.Throw error ->
  Terms.rethrown_by_get (Client.baseUrl this ++ endpoint) error
  /\ exists i, i < n
       /\ Notions.batch_settles_to this endpoint
            (List.length (Client.issued w) + i) = JS.Throw error.
Proof.
  destruct (concurrentRequests_run this endpoint n w)
    as (ps & w' & -> & Hmap & _).
  cbn [fst]. unfold Client.Promise_all.
  destruct (Client.earliest_rejection ps) as [[t e] |] eqn:Ee;
    [| discriminate].
  intro H. injection H as ->.
  destruct (earliest_rejection_member _ Ee) as (p & Hp & Hr).
  assert (Hin : In (JS.Throw error) (List.map (@Client.result _) ps))
    by (rewrite <- Hr; apply in_map; exact Hp).
  rewrite Hmap in Hin. apply in_map_iff in Hin as (k & Hk & Hseq).
  apply in_seq in Hseq. split.
  - apply (thrown_by_get_is_rethrown _ _ Hk).
  - exists (k - List.length (Client.issued w)). split; [lia |].
    replace (List.length (Client.issued w)
             + (k - List.length (Client.issued w))) with k by lia.
    exact Hk.
Qed.

Lemma concurrentRequests_throws_a_get_error_witness :
  Terms.rethrown_by_get
    (Client.baseUrl
       (Samples.client_of
          (Samples.failing_at 2 Samples.connection_refused
             Samples.ok_response)) ++ Samples.comments)
    (JS.ErrorObject
       (JS.js ("API request to http://localhost:3000/posts/1/comments"
               ++ " failed: connect ECONNREFUSED 127.0.0.1:3000"))).
Proof.
  apply (proj1 (@concurrentRequests_throws_a_get_error
                  (Samples.client_of
                     (Samples.failing_at 2 Samples.connection_refused
                        Samples.ok_response))
                  Samples.comments 3 Client.fresh _ eq_refl)).
Defined.

(** ** Response times *)

Section ResponseTimes.
Import JS Types Client Notions Timing.

Lemma num_le_of_Z (a b : Z) : num_le (of_Z a) (of_Z b) = (a <=? b)%Z.
Proof.
  simpl. apply eq_true_iff_eq.
  rewrite Qle_bool_iff, Z.leb_le, Zle_Qle. tauto.
Qed.

Variable toBeLessThanOrEqual_error : number -> number -> thrown.
Variables startTime settledTime : Z.
Variable this : ApiClient.
Variable endpoint : jsstring.

(** The run of [validateResponseTime], read off the exchange. *)
Lemma validateResponseTime_run (maxResponseTime : option number) (w : world) :
  let limit :=
    match maxResponseTime with Some n => n | None => of_Z 2000 end in
  let run :=
    validateResponseTime toBeLessThanOrEqual_error startTime settledTime
      this endpoint maxResponseTime w in
  fst run
  = match batch_settles_to this endpoint (List.length (issued w)) with
    | Throw error => Throw error
    | Return _ =>
        if num_le (of_Z (settledTime - startTime)) limit
        then Return (settledTime - startTime)%Z
        else Throw (toBeLessThanOrEqual_error
                      (of_Z (settledTime - startTime)) limit)
    end
  /\ issued (snd run) = issued w ++ [request_of this endpoint no_options].
Proof.
  cbn zeta. unfold batch_settles_to.
  rewrite <- get_result, <- get_issued.
  unfold validateResponseTime, catch, bind, call, await, lift, ret, throw,
    expect_toBeLessThanOrEqual.
  destruct (get this endpoint no_options w) as [pending w'].
  cbn [fst snd result]. destruct (result pending) as [envelope | error];
    [| split; reflexivity].
  destruct (num_le _ _); split; reflexivity.
Qed.

End ResponseTimes.

(** X19.  [validateResponseTime] does not look at the status: whenever
    the exchange completes and the body parses, be the status 200 or 500,
    it returns the elapsed time if that is at most the limit (the limit
    included) and throws the failed expectation if it is more.  An
    omitted limit stands for 2000. *)
Theorem validateResponseTime_ignores_status
  (toBeLessThanOrEqual_error : JS.number -> JS.number -> JS.thrown)
  (startTime settledTime limit : Z)
  (this : Client.ApiClient) (endpoint : JS.jsstring) (w : Client.world)
  (response : Playwright.APIResponse) (body : JS.value) :
  Notions.completes_with
    (Notions.meets this endpoint Client.no_options
       (List.length (Client.issued w)))
    response body ->
  let run :=
    Timing.validateResponseTime toBeLessThanOrEqual_error startTime
      settledTime this endpoint (Some (JS.of_Z limit)) w in
  ((settledTime - startTime <= limit)%Z ->
   fst run = JS.Return (settledTime - startTime)%Z)
  /\ ((limit < settledTime - startTime)%Z ->
      fst run
      = JS.Throw (toBeLessThanOrEqual_error
                    (JS.of_Z (settledTime - startTime)) (JS.of_Z limit)))
  /\ Timing.validateResponseTime toBeLessThanOrEqual_error startTime
       settledTime this endpoint None w
     = Timing.validateResponseTime toBeLessThanOrEqual_error startTime
         settledTime this endpoint (Some (JS.of_Z 2000)) w.
Proof.
  intros [Hout Hjson] run. subst run.
  destruct (validateResponseTime_run toBeLessThanOrEqual_error startTime
              settledTime this endpoint (Some (JS.of_Z limit)) w)
    as [Hrun _].
  cbn zeta in Hrun. rewrite Hrun.
  unfold Notions.batch_settles_to, Notions.settles_to.
  rewrite Hout, Hjson, num_le_of_Z.
  split; [| split; [| reflexivity]]; intro H.
  - apply Z.leb_le in H. rewrite H. reflexivity.
  - apply Z.leb_gt in H. rewrite H. reflexivity.
Qed.

Lemma validateResponseTime_ignores_status_witness :
  fst (Timing.validateResponseTime Terms.sample_matcher_error 1000 1350
         (Samples.client_of (Samples.answering Terms.error_with_albums))
         Samples.comments (Some (JS.of_Z 2000)) Client.fresh)
  = JS.Return 350%Z.
Proof.
  apply (proj1 (@validateResponseTime_ignores_status
                  Terms.sample_matcher_error 1000 1350 2000
                  (Samples.client_of
                     (Samples.answering Terms.error_with_albums))
                  Samples.comments Client.fresh
                  Terms.error_with_albums
                  (JS.VArr [Terms.album 1 1 "quidem"])
                  (conj eq_refl eq_refl))).
  lia.
Defined.

(** X20.  When [get] throws, [validateResponseTime] throws the same
    error, not wrapped a second time and whatever the clock says; and in
    every case it has issued exactly one request. *)
Theorem validateResponseTime_rethrows
  (toBeLessThanOrEqual_error : JS.number -> JS.number -> JS.thrown)
  (startTime settledTime : Z) (maxResponseTime : option JS.number)
  (this : Client.ApiClient) (endpoint : JS.jsstring) (w : Client.world) :
  let run :=
    Timing.validateResponseTime toBeLessThanOrEqual_error startTime
      settledTime this endpoint maxResponseTime w in
  (forall error : JS.thrown,
      Client.result (fst (Client.get this endpoint Client.no_options w))
      = JS.Throw error ->
      fst run = JS.Throw error)
  /\ Client.issued (snd run)
     = Client.issued w
       ++ [Notions.request_of this endpoint Client.no_options].
Proof.
  intro run. subst run.
  destruct (validateResponseTime_run toBeLessThanOrEqual_error startTime
              settledTime this endpoint maxResponseTime w) as [Hrun Hiss].
  cbn zeta in Hrun, Hiss. split; [| exact Hiss].
  intros error Hget. rewrite get_result in Hget.
  rewrite Hrun. unfold Notions.batch_settles_to. rewrite Hget. reflexivity.
Qed.

Lemma validateResponseTime_rethrows_witness :
  fst (Timing.validateResponseTime Terms.sample_matcher_error 0 5
         (Samples.client_of (Samples.refusing Samples.connection_refused))
         Samples.comments None Client.fresh)
  = JS.Throw
      (JS.ErrorObject
         (JS.js ("API request to http://localhost:3000/posts/1/comments"
                 ++ " failed: connect ECONNREFUSED 127.0.0.1:3000"))).
Proof.
  apply (proj1 (validateResponseTime_rethrows Terms.sample_matcher_error 0 5
                  None
                  (Samples.client_of
                     (Samples.refusing Samples.connection_refused))
                  Samples.comments Client.fresh)).
  reflexivity.
Defined.

(** X21.  A time that [validateResponseTime] has returned passes
    [assertResponseTime] under the same limit: the second assertion that
    the tests make on the returned time cannot fail. *)
Theorem returned_time_passes_assertResponseTime
  (toBeLessThanOrEqual_error : JS.number -> JS.number -> JS.thrown)
  (startTime settledTime : Z) (maxResponseTime : option JS.number)
  (this : Client.ApiClient) (endpoint : JS.jsstring) (w : Client.world)
  (responseTime : Z) :
  fst (Timing.validateResponseTime toBeLessThanOrEqual_error startTime
         settledTime this endpoint maxResponseTime w)
  = JS.Return responseTime ->
  responseTime = (settledTime - startTime)%Z
  /\ Timing.assertResponseTime toBeLessThanOrEqual_error
       (JS.of_Z responseTime) maxResponseTime = JS.Return tt.
Proof.
  destruct (validateResponseTime_run toBeLessThanOrEqual_error startTime
              settledTime this endpoint maxResponseTime w) as [Hrun _].
  cbn zeta in Hrun. rewrite Hrun.
  destruct (Notions.batch_settles_to this endpoint _); [| discriminate].
  unfold Timing.assertResponseTime, Timing.expect_toBeLessThanOrEqual.
  destruct (Timing.num_le _ _) eqn:E; [| discriminate].
  intro H. injection H as <-. rewrite E. split; reflexivity.
Qed.

Lemma returned_time_passes_assertResponseTime_witness :
  350%Z = (1350 - 1000)%Z
  /\ Timing.assertResponseTime Terms.sample_matcher_error (JS.of_Z 350)
       (Some (JS.of_Z 2000)) = JS.Return tt.
Proof.
  apply (@returned_time_passes_assertResponseTime
           Terms.sample_matcher_error 1000 1350 (Some (JS.of_Z 2000))
           (Samples.client_of (Samples.answering Samples.ok_response))
           Samples.comments Client.fresh 350).
  reflexivity.
Defined.

(** ** The declaration of [validateEmailFormat] that is replaced *)

Section ShadowedDeclaration.
Import JS RegExp Validators.

Ltac to_arith H :=
  repeat first
    [ rewrite orb_true_iff in H
    | rewrite andb_true_iff in H
    | rewrite N.leb_le in H
    | rewrite N.eqb_eq in H ].

Lemma alnum_arith (c : N) :
  alnum c = true ->
  (97 <= c <= 122 \/ 65 <= c <= 90 \/ 48 <= c <= 57)%N.
Proof.
  unfold alnum.
  change (between "a" "z" c) with ((97 <=? c) && (c <=? 122))%N.
  change (between "A" "Z" c) with ((65 <=? c) && (c <=? 90))%N.
  change (between "0" "9" c) with ((48 <=? c) && (c <=? 57))%N.
  intro H. to_arith H. lia.
Qed.

Lemma not_space_or_at_arith (c : N) :
  (33 <= c <= 126)%N -> c <> 64%N -> not_space_or_at c = true.
Proof.
  intros Hr Hat. unfold not_space_or_at.
  apply negb_true_iff. apply orb_false_iff. split.
  - apply not_true_is_false. intro H. unfold is_whitespace in H.
    to_arith H. lia.
  - unfold one_of. change (js "@") with [64%N]. cbn [existsb].
    rewrite orb_false_r. apply N.eqb_neq. exact Hat.
Qed.

Lemma alnum_or_hyphen_plain (c : N) :
  alnum_or_hyphen c = true -> not_space_or_at c = true /\ c <> 46%N.
Proof.
  unfold alnum_or_hyphen. intro H. apply orb_true_iff in H as [H | H].
  - apply alnum_arith in H. split; [apply not_space_or_at_arith |]; lia.
  - unfold one_of in H. change (js "-") with [45%N] in H.
    cbn [existsb] in H. rewrite orb_false_r in H. apply N.eqb_eq in H.
    split; [apply not_space_or_at_arith |]; lia.
Qed.

Lemma local_part_char_plain (c : N) :
  local_part_char c = true -> not_space_or_at c = true.
Proof.
  unfold local_part_char. intro H. apply orb_true_iff in H as [H | H].
  - apply alnum_arith in H. apply not_space_or_at_arith; lia.
  - unfold one_of in H.
    change (js ".!#$%&'*+/=?^_`{|}~-")
      with [46; 33; 35; 36; 37; 38; 39; 42; 43; 47; 61; 63; 94; 95; 96;
            123; 124; 125; 126; 45]%N in H.
    cbn [existsb] in H. to_arith H.
    apply not_space_or_at_arith; lia.
Qed.

Lemma forallb_impl (f g : N -> bool) (l : jsstring) :
  (forall c, f c = true -> g c = true) ->
  forallb f l = true -> forallb g l = true.
Proof.
  intros Hfg H. rewrite forallb_forall in *. auto.
Qed.

Lemma Lang_AtMost_Class (f : N -> bool) (n : nat) :
  forall s, Lang (AtMost n (Class f)) s -> forallb f s = true.
Proof.
  induction n as [| n IH]; intros s H; simpl in H.
  - inversion H. reflexivity.
  - inversion H; subst.
    + match goal with H' : Lang Empty _ |- _ => inversion H' end.
      reflexivity.
    + match goal with H' : Lang (Cat _ _) _ |- _ => inversion H'; subst end.
      match goal with H' : Lang (Class _) _ |- _ => inversion H'; subst end.
      rewrite forallb_app. simpl.
      match goal with H' : f _ = true |- _ => rewrite H' end.
      simpl. apply IH. assumption.
Qed.

Lemma alnum_is_alnum_or_hyphen (c : N) :
  alnum c = true -> alnum_or_hyphen c = true.
Proof. intro H. unfold alnum_or_hyphen. rewrite H. reflexivity. Qed.

Lemma Lang_Class_inv (f : N -> bool) (s : jsstring) :
  Lang (Class f) s -> exists c, s = [c] /\ f c = true.
Proof. intro H. inversion H; subst. eauto. Qed.

Lemma Lang_Or_inv (r1 r2 : regex) (s : jsstring) :
  Lang (Or r1 r2) s -> Lang r1 s \/ Lang r2 s.
Proof. intro H. inversion H; subst; auto. Qed.

Lemma Lang_Empty_inv (s : jsstring) : Lang Empty s -> s = [].
Proof. intro H. inversion H. reflexivity. Qed.

Lemma Lang_dns_label (l : jsstring) :
  Lang dns_label l -> l <> [] /\ forallb alnum_or_hyphen l = true.
Proof.
  unfold dns_label, Maybe. intro H.
  apply Lang_Cat in H as (first & more & -> & Hfirst & Hmore).
  apply Lang_Class_inv in Hfirst as (c & -> & Hc).
  split; [discriminate |].
  cbn [app forallb]. rewrite (alnum_is_alnum_or_hyphen _ Hc). cbn [andb].
  apply Lang_Or_inv in Hmore as [Hmore | Hmore].
  - apply Lang_Empty_inv in Hmore. subst more. reflexivity.
  - apply Lang_Cat in Hmore as (inner & final & -> & Hinner & Hfinal).
    apply Lang_Class_inv in Hfinal as (d & -> & Hd).
    rewrite forallb_app, (@Lang_AtMost_Class _ _ _ Hinner). cbn [forallb andb].
    rewrite (alnum_is_alnum_or_hyphen _ Hd). reflexivity.
Qed.

Lemma label_is_plain (l : jsstring) :
  forallb alnum_or_hyphen l = true ->
  forallb not_space_or_at l = true /\ ~ In 46%N l.
Proof.
  intro H. split.
  - apply (@forallb_impl alnum_or_hyphen not_space_or_at); [| exact H].
    intros c Hc. apply alnum_or_hyphen_plain. exact Hc.
  - intro Hin. rewrite forallb_forall in H.
    apply (proj2 (alnum_or_hyphen_plain _ (H _ Hin))). reflexivity.
Qed.

(** A non-empty run of dot-and-label ends in a dot and a label. *)
Lemma dotted_labels (r : regex) (rest : jsstring) :
  Lang r rest ->
  r = Many (Cat (Class (one_of ".")) dns_label) ->
  rest = []
  \/ exists mid tld,
       rest = mid ++ js "." ++ tld
       /\ forallb not_space_or_at mid = true
       /\ plain_run tld.
Proof.
  induction 1 as [| | | | | r0 | r0 s1 s2 H1 IH1 H2 IH2]; intro Er;
    try discriminate.
  - left. reflexivity.
  - injection Er as ->. right.
    apply Lang_Cat in H1 as (dot & label & -> & Hdot & Hlabel).
    apply (@Lang_single "." 46%N _ eq_refl) in Hdot. subst dot.
    apply Lang_dns_label in Hlabel as [Hne Hlabel].
    destruct (label_is_plain _ Hlabel) as [Hplain _].
    destruct (IH2 eq_refl) as [-> | (mid & tld & -> & Hmid & Htld)].
    + exists [], label. rewrite app_nil_r. repeat split; assumption.
    + exists (js "." ++ label ++ mid), tld.
      split; [rewrite <- !app_assoc; reflexivity |].
      split; [| exact Htld].
      rewrite !forallb_app, Hplain, Hmid. reflexivity.
Qed.

End ShadowedDeclaration.

(** X22.  Every address that the first declaration of
    [validateEmailFormat] accepts, the one that calls reach accepts too,
    unless the domain is a single label without a dot.  *)
Theorem first_declaration_stricter_except_dotless (s : JS.jsstring) :
  Validators.validateEmailFormat_rfc5322 s = true ->
  Validators.validateEmailFormat s = true
  \/ exists user label : JS.jsstring,
       s = user ++ JS.js "@" ++ label /\ ~ In 46%N label.
Proof.
  intro H.
  change (RegExp.test Validators.emailRegex_rfc5322 s = true) in H.
  apply test_Lang in H. unfold Validators.emailRegex_rfc5322 in H.
  apply Lang_Cat in H as (user & s1 & -> & Huser & H).
  apply Lang_Cat in H as (at_sign & s2 & -> & Hat & H).
  apply Lang_Cat in H as (label & rest & -> & Hlabel & Hrest).
  apply (@Lang_single "@" 64%N _ eq_refl) in Hat. subst at_sign.
  apply Lang_Some1_Class in Huser as [Hune Huser].
  apply Lang_dns_label in Hlabel as [Hlne Hlabel].
  destruct (label_is_plain _ Hlabel) as [Hlplain Hnodot].
  destruct (dotted_labels Hrest eq_refl)
    as [-> | (mid & tld & -> & Hmid & Htld)].
  - right. exists user, label. rewrite app_nil_r. split; [reflexivity |].
    exact Hnodot.
  - left. change (RegExp.test Validators.emailRegex
                    (user ++ JS.js "@" ++ label ++ mid ++ JS.js "." ++ tld)
                  = true).
    apply test_Lang. apply emailRegex_language.
    exists user, (label ++ mid), tld.
    split; [rewrite <- !app_assoc; reflexivity |].
    split; [split; [exact Hune |] |].
    + apply (@forallb_impl Validators.local_part_char
               Validators.not_space_or_at);
        [apply local_part_char_plain | exact Huser].
    + split; [| exact Htld]. split.
      * destruct label; [contradiction | discriminate].
      * rewrite forallb_app, Hlplain, Hmid. reflexivity.
Qed.

Lemma first_declaration_stricter_except_dotless_witness :
  Validators.validateEmailFormat (JS.js "Eliseo@gardner.biz") = true
  \/ exists user label : JS.jsstring,
       JS.js "Eliseo@gardner.biz" = user ++ JS.js "@" ++ label
       /\ ~ In 46%N label.
Proof.
  apply (@first_declaration_stricter_except_dotless
           (JS.js "Eliseo@gardner.biz")).
  vm_compute. reflexivity.
Defined.
